(** * Memory report extraction (socorro/processor/rules/memory_report_extraction.py)

    A shallow embedding of [MemoryReportExtraction._get_memory_measures] and
    the properties of the metric extractor that follow from it.

    Modelling choices.
    - Python integers are unbounded: amounts, kinds, units and pids are [Z].
    - Python dictionaries keyed by strings are [gmap string Z]; a subscript
      read of an absent key raises [KeyError], as in Python.
    - A record of the report list is the JSON object with the five keys the
      loop reads ([process], [path], [kind], [units], [amount]): a Rocq
      record with these five fields, strings for the first two and integers
      for the others.  A JSON object that lacks one of the keys (the
      [KeyError] that [action] logs) is not a value of this type; the
      module [MemoryReportExtraction] below has [predicate], [action] and
      the same function on objects whose keys may be missing, and relates
      the two.
    - [raise] is the [Raise] constructor of a result type; the loop threads
      its local variables explicitly.

    Two vendored modules follow: [LdapDn] (ldap/dn.py) and [IsoTzinfo]
    (isodate/isotzinfo.py).  The definitions of all the parts come first,
    then their properties. *)

From stdpp Require Import gmap strings list fin_maps pretty.
From Stdlib Require Import ZArith Ascii String.

Open Scope Z_scope.

(** ** Exceptions and the error monad *)

Inductive exn : Type :=
| ValueError (msg : string)
| KeyError (key : string).

Inductive result (A : Type) : Type :=
| Ok (a : A)
| Raise (e : exn).

Arguments Ok {A} a.
Arguments Raise {A} e.

Definition bind {A B : Type} (c : result A) (k : A → result B) : result B :=
  match c with
  | Ok a => k a
  | Raise e => Raise e
  end.

Notation "'let*' x ':=' c 'in' k" := (bind c (λ x, k))
  (at level 10, x name, c at level 100, k at level 200).

(** ** The Python string and dictionary operations the rule uses *)

Module Py.

(** [s.startswith(p)] *)
Definition startswith (s p : string) : bool := String.prefix p s.

(** [needle in hay] on strings: [needle] occurs at some offset of [hay]. *)
Fixpoint str_in (needle hay : string) : bool :=
  String.prefix needle hay
  || match hay with
     | EmptyString => false
     | String _ hay' => str_in needle hay'
     end.

(** [s.replace(old, new)] for one-character [old] and [new]. *)
Fixpoint replace (s : string) (old new : Ascii.ascii) : string :=
  match s with
  | EmptyString => EmptyString
  | String c s' =>
      String (if Ascii.eqb c old then new else c) (replace s' old new)
  end.

(** [str(n)] of an integer: decimal digits, with a leading minus sign. *)
Definition str (n : Z) : string := pretty n.

(** [d[k]] *)
Definition getitem (d : gmap string Z) (k : string) : result Z :=
  match d !! k with
  | Some v => Ok v
  | None => Raise (KeyError k)
  end.

(** [d[k] += a] *)
Definition iadd (d : gmap string Z) (k : string) (a : Z)
  : result (gmap string Z) :=
  let* v := getitem d k in
  Ok (<[k := v + a]> d).

(** [k in d] *)
Definition contains (d : gmap string Z) (k : string) : bool :=
  bool_decide (is_Some (d !! k)).

(** [d.update(other)]: the entries of [other] win. *)
Definition update (d other : gmap string Z) : gmap string Z := other ∪ d.

(** [{key.replace(old, new): val for key, val in d.items()}].  The
    comprehension inserts the renamed items one after the other.  Python
    walks the items in insertion order; the order only shows when two keys
    get the same new name, which the metric names never do. *)
Definition rename_keys (d : gmap string Z) (old new : Ascii.ascii)
  : gmap string Z :=
  foldl (λ acc kv, <[replace kv.1 old new := kv.2]> acc) ∅ (map_to_list d).

End Py.

(** ** Module constants *)

Definition KIND_NONHEAP : Z := 0.
Definition KIND_HEAP : Z := 1.
Definition UNITS_BYTES : Z := 0.

(** ** Data model *)

(** One entry of [memory_report["reports"]]. *)
Record Report : Type := mkReport {
  process : string;
  path : string;
  kind : Z;
  units : Z;
  amount : Z
}.

(** The memory report object, with the three keys the rule's predicate
    checks before the extraction is called. *)
Record MemoryReport : Type := mkMemoryReport {
  version : Z;
  reports : list Report;
  hasMozMallocUsableSize : bool
}.

(** ** [_get_memory_measures] *)

Definition metrics_measured : gmap string Z :=
  list_to_map
    [ ("gfx-textures", 0); ("ghost-windows", 0); ("heap-allocated", 0);
      ("host-object-urls", 0); ("private", 0); ("resident", 0);
      ("resident-unique", 0); ("system-heap-allocated", 0);
      ("vsize-max-contiguous", 0); ("vsize", 0) ].

Definition metrics_derived : gmap string Z :=
  list_to_map
    [ ("explicit", 0); ("heap-overhead", 0); ("heap-unclassified", 0);
      ("images", 0); ("js-main-runtime", 0); ("top-none-detached", 0) ].

(** The local variables the loop reads and writes. *)
Record locals : Type := mkLocals {
  explicit_heap : Z;
  explicit_nonheap : Z;
  pid_found : bool;
  all_metrics : gmap string Z
}.

Definition locals_init : locals :=
  {| explicit_heap := 0;
     explicit_nonheap := 0;
     pid_found := false;
     all_metrics := Py.update (Py.update ∅ metrics_measured) metrics_derived |}.

Definition set_all_metrics (st : locals) (d : gmap string Z) : locals :=
  {| explicit_heap := explicit_heap st;
     explicit_nonheap := explicit_nonheap st;
     pid_found := pid_found st;
     all_metrics := d |}.

Definition bad_units_msg (p : string) (u : Z) : string :=
  "bad units for an explicit/ report: " +:+ p +:+ ", " +:+ Py.str u.

Definition bad_kind_msg (p : string) (k : Z) : string :=
  "bad kind for an explicit/ report: " +:+ p +:+ ", " +:+ Py.str k.

Definition no_measurements_msg (pid : Z) : string :=
  "no measurements found for pid " +:+ Py.str pid.

(** The body of [for report in memory_report["reports"]]. *)
Definition loop_body (pid_str : string) (st : locals) (report : Report)
  : result locals :=
  let process_ := process report in
  if negb (Py.str_in pid_str process_) then Ok st (* continue *)
  else
    let st := {| explicit_heap := explicit_heap st;
                 explicit_nonheap := explicit_nonheap st;
                 pid_found := true;
                 all_metrics := all_metrics st |} in
    let path_ := path report in
    let kind_ := kind report in
    let units_ := units report in
    let amount_ := amount report in
    if Py.startswith path_ "explicit/" then
      if negb (units_ =? UNITS_BYTES) then
        Raise (ValueError (bad_units_msg path_ units_))
      else
        let* st :=
          if kind_ =? KIND_NONHEAP then
            Ok {| explicit_heap := explicit_heap st;
                  explicit_nonheap := explicit_nonheap st + amount_;
                  pid_found := pid_found st;
                  all_metrics := all_metrics st |}
          else if kind_ =? KIND_HEAP then
            Ok {| explicit_heap := explicit_heap st + amount_;
                  explicit_nonheap := explicit_nonheap st;
                  pid_found := pid_found st;
                  all_metrics := all_metrics st |}
          else Raise (ValueError (bad_kind_msg path_ kind_)) in
        if Py.startswith path_ "explicit/images/" then
          let* d := Py.iadd (all_metrics st) "images" amount_ in
          Ok (set_all_metrics st d)
        else if Py.str_in "top(none)/detached" path_ then
          let* d := Py.iadd (all_metrics st) "top-none-detached" amount_ in
          Ok (set_all_metrics st d)
        else if Py.startswith path_ "explicit/heap-overhead/" then
          let* d := Py.iadd (all_metrics st) "heap-overhead" amount_ in
          Ok (set_all_metrics st d)
        else Ok st
    else if Py.startswith path_ "js-main-runtime/" then
      let* d := Py.iadd (all_metrics st) "js-main-runtime" amount_ in
      Ok (set_all_metrics st d)
    else if Py.contains metrics_measured path_ then
      let* d := Py.iadd (all_metrics st) path_ amount_ in
      Ok (set_all_metrics st d)
    else Ok st.

(** The [for] loop: the body runs on each record in input order, and the
    first exception leaves the loop. *)
Fixpoint for_reports (pid_str : string) (st : locals) (l : list Report)
  : result locals :=
  match l with
  | [] => Ok st
  | report :: l' =>
      let* st' := loop_body pid_str st report in
      for_reports pid_str st' l'
  end.

Definition pid_marker (pid : Z) : string := "(pid " +:+ Py.str pid +:+ ")".

Definition _get_memory_measures (memory_report : MemoryReport) (pid : Z)
  : result (gmap string Z) :=
  let pid_str := pid_marker pid in
  let* st := for_reports pid_str locals_init (reports memory_report) in
  if negb (pid_found st) then Raise (ValueError (no_measurements_msg pid))
  else
    let d := all_metrics st in
    let* heap_allocated := Py.getitem d "heap-allocated" in
    let d := <["heap-unclassified" := heap_allocated - explicit_heap st]> d in
    let* heap_allocated := Py.getitem d "heap-allocated" in
    let d := <["explicit" := heap_allocated + explicit_nonheap st]> d in
    Ok (Py.rename_keys d "-"%char "_"%char).

(** ** Vocabulary of the properties *)

(** The keys of [all_metrics], in insertion order. *)
Definition metric_names : list string :=
  [ "gfx-textures"; "ghost-windows"; "heap-allocated"; "host-object-urls";
    "private"; "resident"; "resident-unique"; "system-heap-allocated";
    "vsize-max-contiguous"; "vsize";
    "explicit"; "heap-overhead"; "heap-unclassified"; "images";
    "js-main-runtime"; "top-none-detached" ].

(** The dictionary that holds [f k] under every metric name [k]. *)
Definition table (f : string → Z) : gmap string Z :=
  list_to_map ((λ k, (k, f k)) <$> metric_names).

(** The same values under the names with underscores. *)
Definition out_table (f : string → Z) : gmap string Z :=
  list_to_map ((λ k, (Py.replace k "-" "_", f k)) <$> metric_names).

Definition matches_pid (pid_str : string) (r : Report) : bool :=
  Py.str_in pid_str (process r).

Definition is_explicit (r : Report) : bool :=
  Py.startswith (path r) "explicit/".

(** The exception a record of the requested process raises, if any. *)
Definition fatal (r : Report) : option exn :=
  if is_explicit r then
    if negb (units r =? UNITS_BYTES) then
      Some (ValueError (bad_units_msg (path r) (units r)))
    else if (kind r =? KIND_NONHEAP) || (kind r =? KIND_HEAP) then None
    else Some (ValueError (bad_kind_msg (path r) (kind r)))
  else None.

(** The exception of the first record, in input order, that raises one. *)
Fixpoint first_fatal (pid_str : string) (l : list Report) : option exn :=
  match l with
  | [] => None
  | r :: l' =>
      match (if matches_pid pid_str r then fatal r else None) with
      | Some e => Some e
      | None => first_fatal pid_str l'
      end
  end.

(** The key of [all_metrics] a record of the requested process is added
    to, if any: the chain of the [explicit/] branch, and the two branches
    for the other paths. *)
Definition explicit_bucket (p : string) : option string :=
  if Py.startswith p "explicit/images/" then Some "images"
  else if Py.str_in "top(none)/detached" p then Some "top-none-detached"
  else if Py.startswith p "explicit/heap-overhead/" then Some "heap-overhead"
  else None.

Definition measured_bucket (p : string) : option string :=
  if Py.startswith p "js-main-runtime/" then Some "js-main-runtime"
  else if Py.contains metrics_measured p then Some p
  else None.

Definition bucket (r : Report) : option string :=
  if is_explicit r then explicit_bucket (path r)
  else measured_bucket (path r).

Definition feeds (pid_str : string) (k : string) (r : Report) : bool :=
  matches_pid pid_str r && bool_decide (bucket r = Some k).

Definition explicit_of_kind (pid_str : string) (k : Z) (r : Report) : bool :=
  matches_pid pid_str r && is_explicit r && (kind r =? k).

Definition sum_amounts (l : list Report) : Z :=
  foldr (λ r acc, amount r + acc) 0 l.

(** The local variables after a loop over [l] that raised nothing. *)
Definition locals_after (pid_str : string) (st : locals) (f : string → Z)
    (l : list Report) : locals :=
  {| explicit_heap :=
       explicit_heap st
       + sum_amounts (List.filter (explicit_of_kind pid_str KIND_HEAP) l);
     explicit_nonheap :=
       explicit_nonheap st
       + sum_amounts (List.filter (explicit_of_kind pid_str KIND_NONHEAP) l);
     pid_found := pid_found st || existsb (matches_pid pid_str) l;
     all_metrics :=
       table (λ k, f k + sum_amounts (List.filter (feeds pid_str k) l)) |}.

(** The value of every key of [all_metrics] when the function returns:
    the sums of the loop, and the two values computed after it. *)
Definition final_metrics (pid_str : string) (l : list Report) (k : string)
  : Z :=
  let heap_allocated :=
    sum_amounts (List.filter (feeds pid_str "heap-allocated") l) in
  if decide (k = "explicit") then
    heap_allocated
    + sum_amounts (List.filter (explicit_of_kind pid_str KIND_NONHEAP) l)
  else if decide (k = "heap-unclassified") then
    heap_allocated
    - sum_amounts (List.filter (explicit_of_kind pid_str KIND_HEAP) l)
  else sum_amounts (List.filter (feeds pid_str k) l).

(** The keys of the returned dictionary. *)
Definition output_names : list string :=
  [ "gfx_textures"; "ghost_windows"; "heap_allocated"; "host_object_urls";
    "private"; "resident"; "resident_unique"; "system_heap_allocated";
    "vsize_max_contiguous"; "vsize";
    "explicit"; "heap_overhead"; "heap_unclassified"; "images";
    "js_main_runtime"; "top_none_detached" ].

(** The records the three rules of the [explicit/] branch select: the rules
    are tried in this order and the first that applies is the only one
    that runs. *)
Definition adds_to_images (pid_str : string) (r : Report) : bool :=
  matches_pid pid_str r && is_explicit r
  && Py.startswith (path r) "explicit/images/".

Definition adds_to_top_none_detached (pid_str : string) (r : Report) : bool :=
  matches_pid pid_str r && is_explicit r
  && negb (Py.startswith (path r) "explicit/images/")
  && Py.str_in "top(none)/detached" (path r).

Definition adds_to_heap_overhead (pid_str : string) (r : Report) : bool :=
  matches_pid pid_str r && is_explicit r
  && negb (Py.startswith (path r) "explicit/images/")
  && negb (Py.str_in "top(none)/detached" (path r))
  && Py.startswith (path r) "explicit/heap-overhead/".

(** The records of the requested process with exactly the path [p]. *)
Definition has_path (pid_str p : string) (r : Report) : bool :=
  matches_pid pid_str r && String.eqb (path r) p.

(** [r] takes part in the value of the key [k] of [all_metrics]. *)
Definition contributes (pid_str k : string) (r : Report) : bool :=
  if decide (k = "explicit") then
    feeds pid_str "heap-allocated" r || explicit_of_kind pid_str KIND_NONHEAP r
  else if decide (k = "heap-unclassified") then
    feeds pid_str "heap-allocated" r || explicit_of_kind pid_str KIND_HEAP r
  else feeds pid_str k r.

(** [r] with other values under ["kind"] and ["units"]. *)
Definition with_kind_units (r : Report) (k u : Z) : Report :=
  {| process := process r; path := path r; kind := k; units := u;
     amount := amount r |}.

(** ** Sample reports *)

Definition images_detached_record : Report :=
  mkReport "Main Process (pid 7)" "explicit/images/top(none)/detached"
           KIND_HEAP UNITS_BYTES 5.

Definition overhead_detached_record : Report :=
  mkReport "Main Process (pid 7)" "explicit/heap-overhead/top(none)/detached"
           KIND_HEAP UNITS_BYTES 3.

Definition heap_allocated_record : Report :=
  mkReport "Main Process (pid 7)" "heap-allocated" KIND_NONHEAP UNITS_BYTES 500.

Definition images_record : Report :=
  mkReport "Main Process (pid 7)" "explicit/images/foo" KIND_HEAP UNITS_BYTES
           700.

Definition nonheap_record : Report :=
  mkReport "Main Process (pid 7)" "explicit/threads/stacks" KIND_NONHEAP
           UNITS_BYTES 40.

Definition resident_record : Report :=
  mkReport "Main Process (pid 7)" "resident" KIND_NONHEAP UNITS_BYTES 1000.

Definition other_pid_record : Report :=
  mkReport "Web Content (pid 71)" "resident" KIND_NONHEAP UNITS_BYTES 9.

Definition bad_units_record : Report :=
  mkReport "Main Process (pid 7)" "explicit/foo" KIND_HEAP 2 10.

Definition bad_kind_record : Report :=
  mkReport "Main Process (pid 7)" "explicit/bar" 2 UNITS_BYTES 10.

Definition odd_resident_record : Report :=
  mkReport "Main Process (pid 7)" "resident" 7 3 1000.

(** The dictionary of the report with the one record
    [{process: "(pid 7)", path: "resident", amount: 1000}]. *)
Definition resident_only_output : gmap string Z :=
  list_to_map
    [ ("gfx_textures", 0); ("ghost_windows", 0); ("heap_allocated", 0);
      ("host_object_urls", 0); ("private", 0); ("resident", 1000);
      ("resident_unique", 0); ("system_heap_allocated", 0);
      ("vsize_max_contiguous", 0); ("vsize", 0);
      ("explicit", 0); ("heap_overhead", 0); ("heap_unclassified", 0);
      ("images", 0); ("js_main_runtime", 0); ("top_none_detached", 0) ].

(** A record of the requested process passes the checks of the
    [explicit/] branch. *)
Definition passes_checks (pid_str : string) (r : Report) : Prop :=
  matches_pid pid_str r = true → is_explicit r = true →
  units r = UNITS_BYTES ∧ (kind r = KIND_NONHEAP ∨ kind r = KIND_HEAP).

(** The outcome [out] is the [ValueError] of the [explicit/] branch for
    the record [r0]: its path with its units when the units are not
    bytes, its path with its kind when the kind is neither of the two. *)
Definition validation_error_for (pid_str : string)
    (out : result (gmap string Z)) (r0 : Report) : Prop :=
  matches_pid pid_str r0 = true ∧ is_explicit r0 = true
  ∧ ((units r0 ≠ UNITS_BYTES
      ∧ out = Raise (ValueError (bad_units_msg (path r0) (units r0))))
     ∨ (units r0 = UNITS_BYTES
        ∧ kind r0 ≠ KIND_NONHEAP ∧ kind r0 ≠ KIND_HEAP
        ∧ out = Raise (ValueError (bad_kind_msg (path r0) (kind r0))))).

(** ** The rule on the JSON objects as they come

    [predicate] and [action] work on the processed crash, a dictionary
    whose keys may be missing, and hand [_get_memory_measures] a memory
    report whose records may lack keys too.  This module has the three
    methods on such objects: a key is a field that is present or not, and a
    subscript of an absent key raises [KeyError].  The values keep the types
    of the data model. *)

Module MemoryReportExtraction.

(** One entry of [memory_report["reports"]]. *)
Record ReportDict : Type := mkReportDict {
  k_process : option string;
  k_path : option string;
  k_kind : option Z;
  k_units : option Z;
  k_amount : option Z
}.

(** [processed_crash["memory_report"]]; [other_keys] are the keys of the
    object besides the three the rule knows. *)
Record MemoryReportDict : Type := mkMemoryReportDict {
  k_version : option Z;
  k_reports : option (list ReportDict);
  k_hasMozMallocUsableSize : option bool;
  other_keys : list string
}.

(** [processed_crash["json_dump"]]. *)
Record JsonDump : Type := mkJsonDump {
  k_pid : option Z
}.

Record ProcessedCrash : Type := mkProcessedCrash {
  k_json_dump : option JsonDump;
  k_memory_report : option MemoryReportDict;
  k_memory_measures : option (gmap string Z)
}.

(** [d[k]] for a key that is present or not. *)
Definition subscript {A : Type} (k : string) (v : option A) : result A :=
  match v with
  | Some a => Ok a
  | None => Raise (KeyError k)
  end.

(** [k in d] *)
Definition has_key {A : Type} (v : option A) : bool :=
  match v with
  | Some _ => true
  | None => false
  end.


(** [str(e)] of a [KeyError]: the [repr] of the key, which for the keys of
    the rule is the key between single quotes. *)
Definition str_KeyError (k : string) : string := "'" +:+ k +:+ "'".


(** The body of the loop: the five subscripts in the order of the source,
    the last four after the test of the process. *)
Definition loop_body (pid_str : string) (st : locals) (report : ReportDict)
  : result locals :=
  let* process_ := subscript "process" (k_process report) in
  if negb (Py.str_in pid_str process_) then Ok st (* continue *)
  else
    let st := {| explicit_heap := explicit_heap st;
                 explicit_nonheap := explicit_nonheap st;
                 pid_found := true;
                 all_metrics := all_metrics st |} in
    let* path_ := subscript "path" (k_path report) in
    let* kind_ := subscript "kind" (k_kind report) in
    let* units_ := subscript "units" (k_units report) in
    let* amount_ := subscript "amount" (k_amount report) in
    if Py.startswith path_ "explicit/" then
      if negb (units_ =? UNITS_BYTES) then
        Raise (ValueError (bad_units_msg path_ units_))
      else
        let* st :=
          if kind_ =? KIND_NONHEAP then
            Ok {| explicit_heap := explicit_heap st;
                  explicit_nonheap := explicit_nonheap st + amount_;
                  pid_found := pid_found st;
                  all_metrics := all_metrics st |}
          else if kind_ =? KIND_HEAP then
            Ok {| explicit_heap := explicit_heap st + amount_;
                  explicit_nonheap := explicit_nonheap st;
                  pid_found := pid_found st;
                  all_metrics := all_metrics st |}
          else Raise (ValueError (bad_kind_msg path_ kind_)) in
        if Py.startswith path_ "explicit/images/" then
          let* d := Py.iadd (all_metrics st) "images" amount_ in
          Ok (set_all_metrics st d)
        else if Py.str_in "top(none)/detached" path_ then
          let* d := Py.iadd (all_metrics st) "top-none-detached" amount_ in
          Ok (set_all_metrics st d)
        else if Py.startswith path_ "explicit/heap-overhead/" then
          let* d := Py.iadd (all_metrics st) "heap-overhead" amount_ in
          Ok (set_all_metrics st d)
        else Ok st
    else if Py.startswith path_ "js-main-runtime/" then
      let* d := Py.iadd (all_metrics st) "js-main-runtime" amount_ in
      Ok (set_all_metrics st d)
    else if Py.contains metrics_measured path_ then
      let* d := Py.iadd (all_metrics st) path_ amount_ in
      Ok (set_all_metrics st d)
    else Ok st.

Fixpoint for_reports (pid_str : string) (st : locals) (l : list ReportDict)
  : result locals :=
  match l with
  | [] => Ok st
  | report :: l' =>
      let* st' := loop_body pid_str st report in
      for_reports pid_str st' l'
  end.

Definition _get_memory_measures (memory_report : MemoryReportDict) (pid : Z)
  : result (gmap string Z) :=
  let pid_str := pid_marker pid in
  let* reports_ := subscript "reports" (k_reports memory_report) in
  let* st := for_reports pid_str locals_init reports_ in
  if negb (pid_found st) then Raise (ValueError (no_measurements_msg pid))
  else
    let d := all_metrics st in
    let* heap_allocated := Py.getitem d "heap-allocated" in
    let d := <["heap-unclassified" := heap_allocated - explicit_heap st]> d in
    let* heap_allocated := Py.getitem d "heap-allocated" in
    let d := <["explicit" := heap_allocated + explicit_nonheap st]> d in
    Ok (Py.rename_keys d "-"%char "_"%char).

Definition log_prefix : string :=
  "Unable to extract measurements from memory report: ".

(** [action] with the lines [self.logger.info] receives: the result is the
    processed crash after the call and the lines logged, or the exception
    that leaves the method. *)
Definition action (processed_crash : ProcessedCrash)
  : result (ProcessedCrash * list string) :=
  let* json_dump := subscript "json_dump" (k_json_dump processed_crash) in
  let* pid := subscript "pid" (k_pid json_dump) in
  let* memory_report :=
    subscript "memory_report" (k_memory_report processed_crash) in
  match _get_memory_measures memory_report pid with
  | Raise (ValueError e) => Ok (processed_crash, [log_prefix +:+ e])
  | Raise (KeyError k) =>
      Ok (processed_crash,
          [log_prefix +:+ "key " +:+ str_KeyError k
           +:+ " is missing from a report"])
  | Ok measures =>
      Ok ({| k_json_dump := k_json_dump processed_crash;
             k_memory_report := k_memory_report processed_crash;
             k_memory_measures := Some measures |}, [])
  end.

(** The objects that have all their keys. *)
Definition of_report (r : Report) : ReportDict :=
  {| k_process := Some (process r); k_path := Some (path r);
     k_kind := Some (kind r); k_units := Some (units r);
     k_amount := Some (amount r) |}.

Definition of_memory_report (mr : MemoryReport) : MemoryReportDict :=
  {| k_version := Some (version mr);
     k_reports := Some (of_report <$> reports mr);
     k_hasMozMallocUsableSize := Some (hasMozMallocUsableSize mr);
     other_keys := [] |}.

End MemoryReportExtraction.

(** The key whose subscript raises in the iteration on [r], if any:
    ["process"] first; then, for a record of the requested process only,
    ["path"], ["kind"], ["units"] and ["amount"] in this order. *)
Definition missing_key (pid_str : string)
    (r : MemoryReportExtraction.ReportDict) : option string :=
  match MemoryReportExtraction.k_process r with
  | None => Some "process"
  | Some p =>
      if negb (Py.str_in pid_str p) then None
      else if negb (MemoryReportExtraction.has_key
                      (MemoryReportExtraction.k_path r)) then Some "path"
      else if negb (MemoryReportExtraction.has_key
                      (MemoryReportExtraction.k_kind r)) then Some "kind"
      else if negb (MemoryReportExtraction.has_key
                      (MemoryReportExtraction.k_units r)) then Some "units"
      else if negb (MemoryReportExtraction.has_key
                      (MemoryReportExtraction.k_amount r)) then Some "amount"
      else None
  end.

(** The record of the values of [r]; an absent key reads as the empty
    string or 0 (the iteration never reads it when [missing_key] is
    [None]). *)
Definition as_report (r : MemoryReportExtraction.ReportDict) : Report :=
  {| process := default "" (MemoryReportExtraction.k_process r);
     path := default "" (MemoryReportExtraction.k_path r);
     kind := default 0 (MemoryReportExtraction.k_kind r);
     units := default 0 (MemoryReportExtraction.k_units r);
     amount := default 0 (MemoryReportExtraction.k_amount r) |}.


(** ** Sample JSON objects *)

Definition resident_dict : MemoryReportExtraction.ReportDict :=
  MemoryReportExtraction.of_report resident_record.

(** A record of the requested process without the key ["kind"]. *)
Definition no_kind_dict : MemoryReportExtraction.ReportDict :=
  MemoryReportExtraction.mkReportDict
    (Some "Main Process (pid 7)") (Some "vsize") None (Some 0) (Some 12).

(** A record of another process with the key ["process"] only. *)
Definition bare_other_dict : MemoryReportExtraction.ReportDict :=
  MemoryReportExtraction.mkReportDict
    (Some "Web Content (pid 71)") None None None None.

Definition sample_crash (l : list MemoryReportExtraction.ReportDict)
  : MemoryReportExtraction.ProcessedCrash :=
  MemoryReportExtraction.mkProcessedCrash
    (Some (MemoryReportExtraction.mkJsonDump (Some 7)))
    (Some (MemoryReportExtraction.mkMemoryReportDict
             (Some 1) (Some l) (Some true) []))
    None.

(** A record of the requested process whose path no rule knows. *)
Definition unknown_path_record : Report :=
  mkReport "Main Process (pid 7)" "address-space/free" KIND_NONHEAP 2 64.

(** The character [x] does not occur in [s]. *)
Fixpoint lacks (x : ascii) (s : string) : bool :=
  match s with
  | EmptyString => true
  | String c s' => negb (Ascii.eqb c x) && lacks x s'
  end.

(** * Distinguished names (bixie/vendor-local/lib/python/ldap/dn.py)

    Strings are the byte strings of Python 2.  A subscript of a string
    raises [IndexError] out of range; the call into the C library
    ([_ldap.str2dn]) is a parameter of the functions that make it, and
    returns a decomposed DN or raises. *)

Module LdapDn.

Inductive dn_exn : Type :=
| IndexError
| LdapError (info : string).

Inductive dn_result (A : Type) : Type :=
| Return (a : A)
| Throw (e : dn_exn).

Arguments Return {A} a.
Arguments Throw {A} e.

Definition dn_bind {A B : Type} (c : dn_result A) (k : A → dn_result B)
  : dn_result B :=
  match c with
  | Return a => k a
  | Throw e => Throw e
  end.

Notation "'let+' x ':=' c 'in' k" := (dn_bind c (λ x, k))
  (at level 10, x name, c at level 100, k at level 200).

(** [s.replace(old, new)] for a one-character [old]. *)
Fixpoint replace (s : string) (old : ascii) (new : string) : string :=
  match s with
  | EmptyString => EmptyString
  | String c s' =>
      if Ascii.eqb c old then new +:+ replace s' old new
      else String c (replace s' old new)
  end.

(** [s[0]] *)
Definition first (s : string) : dn_result ascii :=
  match s with
  | EmptyString => Throw IndexError
  | String c _ => Return c
  end.

(** [s[-1]] *)
Fixpoint last (s : string) : dn_result ascii :=
  match s with
  | EmptyString => Throw IndexError
  | String c EmptyString => Return c
  | String _ s' => last s'
  end.

(** [s[:-1]] *)
Fixpoint but_last (s : string) : string :=
  match s with
  | EmptyString => EmptyString
  | String _ EmptyString => EmptyString
  | String c s' => String c (but_last s')
  end.

(** [sep.join(l)] *)
Fixpoint join (sep : string) (l : list string) : string :=
  match l with
  | [] => EmptyString
  | [x] => x
  | x :: l' => x +:+ sep +:+ join sep l'
  end.

(** [[f(x) for x in l]] for an [f] that may raise. *)
Fixpoint comprehension {A B : Type} (f : A → dn_result B) (l : list A)
  : dn_result (list B) :=
  match l with
  | [] => Return []
  | x :: l' =>
      let+ y := f x in
      let+ ys := comprehension f l' in
      Return (y :: ys)
  end.

Definition backslash : ascii := "\"%char.
Definition dquote : ascii := "034"%char.
Definition nul : ascii := "000"%char.

Definition escape_dn_chars (s : string) : dn_result string :=
  if negb (String.eqb s "") then
    let s := replace s backslash "\\" in
    let s := replace s "," "\," in
    let s := replace s "+" "\+" in
    let s := replace s dquote (String backslash (String dquote "")) in
    let s := replace s "<" "\<" in
    let s := replace s ">" "\>" in
    let s := replace s ";" "\;" in
    let s := replace s "=" "\=" in
    let s := replace s nul (String backslash (String nul "")) in
    let+ c0 := first s in
    let+ s :=
      if Ascii.eqb c0 "#" then Return (join "" ["\"; s])
      else
        let+ c0 := first s in
        if Ascii.eqb c0 " " then Return (join "" ["\"; s]) else Return s in
    let+ c := last s in
    if Ascii.eqb c " " then Return (join "" [but_last s; "\ "])
    else Return s
  else Return s.

(** One attribute of an RDN: type, value ([None] or a string) and the
    flags the C library adds. *)
Definition ava : Type := string * option string * Z.

(** [avalue or ''] *)
Definition or_empty (avalue : option string) : string :=
  match avalue with
  | None => ""
  | Some v => if String.eqb v "" then "" else v
  end.

Definition dn2str (dn : list (list ava)) : dn_result string :=
  let+ rdns :=
    comprehension
      (λ rdn,
         let+ avas :=
           comprehension
             (λ '(atype, avalue, dummy),
                let+ e := escape_dn_chars (or_empty avalue) in
                Return (join "=" [atype; e]))
             rdn in
         Return (join "+" avas))
      dn in
  Return (join "," rdns).

Section WithLibrary.

(** [ldap.functions._ldap_function_call(None, _ldap.str2dn, dn, flags)] *)
Variable ldap_str2dn : string → Z → dn_result (list (list ava)).

Definition str2dn (dn : string) (flags : Z) : dn_result (list (list ava)) :=
  if String.eqb dn "" then Return []
  else ldap_str2dn dn flags.

Definition explode_dn (dn : string) (notypes flags : Z)
  : dn_result (list string) :=
  if String.eqb dn "" then Return []
  else
    let+ dn_decomp := str2dn dn flags in
    comprehension
      (λ rdn,
         if negb (notypes =? 0) then
           let+ avas :=
             comprehension
               (λ '(atype, avalue, dummy),
                  escape_dn_chars (or_empty avalue))
               rdn in
           Return (join "+" avas)
         else
           let+ avas :=
             comprehension
               (λ '(atype, avalue, dummy),
                  let+ e := escape_dn_chars (or_empty avalue) in
                  Return (join "=" [atype; e]))
               rdn in
           Return (join "+" avas))
      dn_decomp.

Definition explode_rdn (rdn : string) (notypes flags : Z)
  : dn_result (list string) :=
  if String.eqb rdn "" then Return []
  else
    let+ dn_decomp := str2dn rdn flags in
    let+ rdn_decomp :=
      match dn_decomp with
      | [] => Throw IndexError
      | x :: _ => Return x
      end in
    if negb (notypes =? 0) then
      comprehension
        (λ '(atype, avalue, dummy), Return (or_empty avalue))
        rdn_decomp
    else
      comprehension
        (λ '(atype, avalue, dummy),
           let+ e := escape_dn_chars (or_empty avalue) in
           Return (join "=" [atype; e]))
        rdn_decomp.

End WithLibrary.

End LdapDn.

(** The characters [escape_dn_chars] puts a backslash before, wherever
    they stand. *)
Definition dn_special (c : ascii) : bool :=
  Ascii.eqb c LdapDn.backslash || Ascii.eqb c "," || Ascii.eqb c "+"
  || Ascii.eqb c LdapDn.dquote || Ascii.eqb c "<" || Ascii.eqb c ">"
  || Ascii.eqb c ";" || Ascii.eqb c "=" || Ascii.eqb c LdapDn.nul.

(** The number of such characters in [s]. *)
Fixpoint count_special (s : string) : nat :=
  match s with
  | EmptyString => 0%nat
  | String c s' => ((if dn_special c then 1 else 0) + count_special s')%nat
  end.

Definition starts_with_hash_or_space (s : string) : bool :=
  match s with
  | String c _ => Ascii.eqb c "#" || Ascii.eqb c " "
  | EmptyString => false
  end.

Fixpoint ends_with_space (s : string) : bool :=
  match s with
  | EmptyString => false
  | String c EmptyString => Ascii.eqb c " "
  | String _ s' => ends_with_space s'
  end.

(** Reading an escaped value back: a backslash stands for the character
    after it. *)
Fixpoint dn_unescape (s : string) : string :=
  match s with
  | EmptyString => EmptyString
  | String c s' =>
      if Ascii.eqb c LdapDn.backslash then
        match s' with
        | EmptyString => EmptyString
        | String d s'' => String d (dn_unescape s'')
        end
      else String c (dn_unescape s')
  end.

(** An escaped value in which nothing is left bare: outside the pairs of a
    backslash and a character, no special character, and no space at the
    very end. *)
Fixpoint dn_no_bare_special (s : string) : bool :=
  match s with
  | EmptyString => true
  | String c s' =>
      if Ascii.eqb c LdapDn.backslash then
        match s' with
        | EmptyString => false
        | String _ s'' => dn_no_bare_special s''
        end
      else
        negb (dn_special c)
        && negb (Ascii.eqb c " " && String.eqb s' "")
        && dn_no_bare_special s'
  end.

(** The replacement of one character by the nine calls of [replace]. *)
Definition dn_escape_char (c : ascii) : string :=
  if dn_special c then String LdapDn.backslash (String c "")
  else String c "".

Fixpoint dn_escape_all (s : string) : string :=
  match s with
  | EmptyString => EmptyString
  | String c s' => dn_escape_char c +:+ dn_escape_all s'
  end.

(** The nine calls of [replace] at the head of [escape_dn_chars]. *)
Definition nine_replacements (s : string) : string :=
  let s := LdapDn.replace s LdapDn.backslash "\\" in
  let s := LdapDn.replace s "," "\," in
  let s := LdapDn.replace s "+" "\+" in
  let s :=
    LdapDn.replace s LdapDn.dquote
      (String LdapDn.backslash (String LdapDn.dquote "")) in
  let s := LdapDn.replace s "<" "\<" in
  let s := LdapDn.replace s ">" "\>" in
  let s := LdapDn.replace s ";" "\;" in
  let s := LdapDn.replace s "=" "\=" in
  LdapDn.replace s LdapDn.nul (String LdapDn.backslash (String LdapDn.nul "")).

(** The value [escape_dn_chars] returns: every special character after a
    backslash, then a backslash before a leading [#] or space, then the
    last character, when it is a space, after a backslash. *)
Definition dn_escaped (s : string) : string :=
  if String.eqb s "" then s
  else
    let r := dn_escape_all s in
    let r :=
      if starts_with_hash_or_space r then String LdapDn.backslash r else r in
    if ends_with_space r then LdapDn.but_last r +:+ "\ " else r.

(** The same value character by character: the last character, when it
    is a space, after a backslash too. *)
Fixpoint dn_escape_body (s : string) : string :=
  match s with
  | EmptyString => EmptyString
  | String c EmptyString =>
      if Ascii.eqb c " " then "\ " else dn_escape_char c
  | String c s' => dn_escape_char c +:+ dn_escape_body s'
  end.

(** The text of one attribute and of one RDN in [dn2str]. *)
Definition ava_text (a : LdapDn.ava) : string :=
  let '(atype, avalue, _) := a in
  LdapDn.join "=" [atype; dn_escaped (LdapDn.or_empty avalue)].

Definition rdn_text (rdn : list LdapDn.ava) : string :=
  LdapDn.join "+" (ava_text <$> rdn).

(** A library call that answers [d] for the string [s]. *)
Definition sample_str2dn (s : string) (d : list (list LdapDn.ava))
  : string → Z → LdapDn.dn_result (list (list LdapDn.ava)) :=
  λ s' _, if String.eqb s' s then LdapDn.Return d
          else LdapDn.Throw (LdapDn.LdapError "decoding error").

(** The last step of [escape_dn_chars]. *)
Definition dn_finish (r : string) : string :=
  if ends_with_space r then LdapDn.but_last r +:+ "\ " else r.

(** * ISO 8601 time zone designators
      (bixie/vendor-local/lib/python/isodate/isotzinfo.py)

    The regular expression [TZ_REGEX] is the matcher [TZ_RE_match]: an
    anchored match that reads [Z], or a sign, two digits and, when a colon
    and two digits follow, those too, or nothing at all.  The classes
    [UTC] and [FixedOffset] of [isodate.tzinfo] are the two constructors of
    [tzinfo]; a [datetime] is known by what its [tzinfo] answers for it. *)

Module IsoTzinfo.

Inductive tz_exn : Type :=
| ISO8601Error (msg : string)
| OverflowError (msg : string)
| AttributeError (msg : string).

Inductive tz_result (A : Type) : Type :=
| Return (a : A)
| Throw (e : tz_exn).

Arguments Return {A} a.
Arguments Throw {A} e.

(** What [build_tzinfo] returns besides [None]. *)
Inductive tzinfo : Type :=
| UTC
| FixedOffset (offset_hours offset_minutes : Z) (name : string).

(** [match.groupdict()]: a group that took no part is [None]. *)
Record groups : Type := mkGroups {
  tzname : option string;
  tzsign : option string;
  tzhour : option string;
  tzmin : option string
}.

Definition is_digit (c : ascii) : bool :=
  (48 <=? N_of_ascii c)%N && (N_of_ascii c <=? 57)%N.

Definition is_sign (c : ascii) : bool :=
  Ascii.eqb c "+" || Ascii.eqb c "-".

(** [TZ_RE.match(tzstring)]:
    [(?P<tzname>(Z|(?P<tzsign>[+-])(?P<tzhour>[0-9]{2})(:(?P<tzmin>[0-9]{2}))?)?)].
    The whole group is optional, so a match object always comes back. *)
Definition TZ_RE_match (tzstring : string) : option groups :=
  let no_designator := Some (mkGroups (Some "") None None None) in
  match tzstring with
  | EmptyString => no_designator
  | String c after =>
      if Ascii.eqb c "Z" then Some (mkGroups (Some "Z") None None None)
      else
        match after with
        | String h1 (String h2 rest) =>
            if is_sign c && is_digit h1 && is_digit h2 then
              let hours_only :=
                Some (mkGroups (Some (String c (String h1 (String h2 ""))))
                               (Some (String c ""))
                               (Some (String h1 (String h2 ""))) None) in
              match rest with
              | String colon (String m1 (String m2 _)) =>
                  if Ascii.eqb colon ":" && is_digit m1 && is_digit m2 then
                    Some (mkGroups
                            (Some (String c (String h1 (String h2
                                     (String ":" (String m1 (String m2 "")))))))
                            (Some (String c ""))
                            (Some (String h1 (String h2 "")))
                            (Some (String m1 (String m2 ""))))
                  else hours_only
              | _ => hours_only
              end
            else no_designator
        | _ => no_designator
        end
  end.

(** [int(s)] of a string of digits. *)
Definition int_of_digits (s : string) : Z :=
  foldl (λ acc c, acc * 10 + (Z.of_N (N_of_ascii c) - 48)) 0
        (list_ascii_of_string s).

(** [int(g or 0)] *)
Definition int_or_0 (g : option string) : Z :=
  match g with
  | None => 0
  | Some s => if String.eqb s "" then 0 else int_of_digits s
  end.

Definition build_tzinfo (tzname : option string) (tzsign : option string)
    (tzhour tzmin : Z) : option tzinfo :=
  match tzname with
  | None => None
  | Some name =>
      if String.eqb name "" then None
      else if String.eqb name "Z" then Some UTC
      else
        let tzsign :=
          if bool_decide (tzsign = Some "-") then -1 else 1 in
        Some (FixedOffset (tzsign * tzhour) (tzsign * tzmin) name)
  end.

Definition parse_tzinfo (tzstring : string) : tz_result (option tzinfo) :=
  match TZ_RE_match tzstring with
  | Some g =>
      Return (build_tzinfo (tzname g) (tzsign g)
                (int_or_0 (tzhour g)) (int_or_0 (tzmin g)))
  | None => Throw (ISO8601Error (tzstring +:+ " not a valid time zone info"))
  end.

(** A [timedelta], in the normal form Python keeps. *)
Record timedelta : Type := mkTimedelta {
  days : Z;
  seconds : Z;
  microseconds : Z
}.

Definition ZERO : timedelta := mkTimedelta 0 0 0.

Definition timedelta_eqb (a b : timedelta) : bool :=
  (days a =? days b) && (seconds a =? seconds b)
  && (microseconds a =? microseconds b).

(** The answers of [dt.tzinfo] for [dt]. *)
Record tz_answers : Type := mkAnswers {
  utcoffset : option timedelta;
  dst : option timedelta
}.

Record datetime : Type := mkDatetime {
  dt_tzinfo : option tz_answers
}.

(** ['%02d' % n] *)
Definition fmt02 (n : Z) : string :=
  let s := Py.str n in
  if (String.length s <? 2)%nat then "0" +:+ s else s.

Definition tz_isoformat (dt : datetime) (format : string)
  : tz_result string :=
  match dt_tzinfo dt with
  | None => Return ""
  | Some tzinfo_ =>
      match utcoffset tzinfo_ with
      | None => Return ""
      | Some tdelta =>
          if timedelta_eqb tdelta ZERO
             && match dst tzinfo_ with
                | Some d => timedelta_eqb d ZERO
                | None => false
                end
          then Return "Z"
          else
            let seconds_ := days tdelta * 24 * 60 * 60 + seconds tdelta in
            let sign := if seconds_ <? 0 then "-" else "+" in
            let seconds_ := Z.abs seconds_ in
            let minutes := seconds_ / 60 in
            let seconds_ := seconds_ mod 60 in
            let hours := minutes / 60 in
            let minutes := minutes mod 60 in
            if hours >? 99 then
              Throw (OverflowError "can not handle differences > 99 hours")
            else if String.eqb format "%Z" then
              Return (sign +:+ fmt02 hours +:+ ":" +:+ fmt02 minutes)
            else if String.eqb format "%z" then
              Return (sign +:+ fmt02 hours +:+ fmt02 minutes)
            else if String.eqb format "%h" then
              Return (sign +:+ fmt02 hours)
            else
              Throw (AttributeError
                       ("unknown format string " +:+ String "034" format
                        +:+ String "034" ""))
      end
  end.

End IsoTzinfo.

(** [s] starts with a designator: [Z], or a sign and two digits. *)
Definition has_designator (s : string) : bool :=
  match s with
  | EmptyString => false
  | String c after =>
      Ascii.eqb c "Z"
      || match after with
         | String h1 (String h2 _) =>
             IsoTzinfo.is_sign c && IsoTzinfo.is_digit h1
             && IsoTzinfo.is_digit h2
         | _ => false
         end
  end.

(** [fmt02 n] is two digits that read back as [n]. *)
Definition fmt02_two_digits (n : Z) : bool :=
  match IsoTzinfo.fmt02 n with
  | String d1 (String d2 EmptyString) =>
      IsoTzinfo.is_digit d1 && IsoTzinfo.is_digit d2
      && (IsoTzinfo.int_of_digits (String d1 (String d2 "")) =? n)
  | _ => false
  end.

(** The datetime whose time zone answers [td] for the offset and [d] for
    the daylight saving time. *)
Definition datetime_at (td : IsoTzinfo.timedelta)
    (d : option IsoTzinfo.timedelta) : IsoTzinfo.datetime :=
  IsoTzinfo.mkDatetime (Some (IsoTzinfo.mkAnswers (Some td) d)).

(** The offset of [td] in seconds, as [tz_isoformat] computes it. *)
Definition offset_seconds (td : IsoTzinfo.timedelta) : Z :=
  IsoTzinfo.days td * 24 * 60 * 60 + IsoTzinfo.seconds td.

(** The test that makes [tz_isoformat] answer [Z]. *)
Definition is_utc (td : IsoTzinfo.timedelta)
    (d : option IsoTzinfo.timedelta) : bool :=
  IsoTzinfo.timedelta_eqb td IsoTzinfo.ZERO
  && match d with
     | Some d => IsoTzinfo.timedelta_eqb d IsoTzinfo.ZERO
     | None => false
     end.

(** The factor [build_tzinfo] makes of the sign. *)
Definition sign_factor (secs : Z) : Z := if secs <? 0 then -1 else 1.

(** The hours and minutes [tz_isoformat] writes. *)
Definition offset_hours_of (secs : Z) : Z := Z.abs secs / 60 / 60.
Definition offset_minutes_of (secs : Z) : Z := (Z.abs secs / 60) mod 60.

(** A colon and two digits come next in [s]. *)
Definition colon_minutes (s : string) : bool :=
  match s with
  | String colon (String m1 (String m2 _)) =>
      Ascii.eqb colon ":" && IsoTzinfo.is_digit m1 && IsoTzinfo.is_digit m2
  | _ => false
  end.

(** Offsets for the examples: five and a half hours east, and three and a
    half hours west ([timedelta(-1, 73800)]). *)
Definition plus_0530 : IsoTzinfo.timedelta := IsoTzinfo.mkTimedelta 0 19800 0.

(** ** The dictionaries of the rule *)

Lemma lookup_keyed (g : string → string) (f : string → Z) (ks : list string)
    (k : string) :
  NoDup (g <$> ks) →
  k ∈ ks →
  (list_to_map ((λ k, (g k, f k)) <$> ks) : gmap string Z) !! g k
  = Some (f k).
Proof.
  induction ks as [|k0 ks IH]; intros Hnd Hin.
  - by apply elem_of_nil in Hin.
  - cbn [fmap list_fmap] in *. apply NoDup_cons in Hnd as [Hk0 Hnd].
    rewrite list_to_map_cons. cbn [fst snd].
    apply elem_of_cons in Hin as [->|Hin].
    + by rewrite lookup_insert_eq.
    + rewrite lookup_insert_ne; [by apply IH|].
      intros Heq. apply Hk0. rewrite Heq.
      by apply list_elem_of_fmap_2.
Qed.

Lemma lookup_keyed_None (g : string → string) (f : string → Z)
    (ks : list string) (i : string) :
  i ∉ g <$> ks →
  (list_to_map ((λ k, (g k, f k)) <$> ks) : gmap string Z) !! i = None.
Proof.
  intros Hi. apply not_elem_of_list_to_map.
  by rewrite <- list_fmap_compose.
Qed.

Lemma metric_names_NoDup : NoDup metric_names.
Proof. apply (bool_decide_unpack _). vm_compute. exact I. Qed.

Lemma output_names_NoDup :
  NoDup ((λ k, Py.replace k "-" "_") <$> metric_names).
Proof. apply (bool_decide_unpack _). vm_compute. exact I. Qed.

Lemma lookup_table (f : string → Z) (k : string) :
  table f !! k = if decide (k ∈ metric_names) then Some (f k) else None.
Proof.
  unfold table. case_decide as Hk.
  - apply (lookup_keyed id f metric_names k); [|done].
    rewrite list_fmap_id. apply metric_names_NoDup.
  - apply (lookup_keyed_None id). by rewrite list_fmap_id.
Qed.

Lemma lookup_out_table (f : string → Z) (k : string) :
  k ∈ metric_names →
  out_table f !! Py.replace k "-" "_" = Some (f k).
Proof.
  intros Hk. unfold out_table.
  apply (lookup_keyed (λ k, Py.replace k "-" "_") f metric_names k);
    [apply output_names_NoDup|done].
Qed.

Lemma table_ext (f g : string → Z) :
  (∀ k, k ∈ metric_names → f k = g k) → table f = table g.
Proof.
  intros Hfg. apply map_eq. intros k. rewrite !lookup_table.
  case_decide; [|done]. by rewrite Hfg.
Qed.

Lemma all_metrics_init_table :
  all_metrics locals_init = table (λ _, 0).
Proof. reflexivity. Qed.

Lemma getitem_table (f : string → Z) (k : string) :
  k ∈ metric_names → Py.getitem (table f) k = Ok (f k).
Proof.
  intros Hk. unfold Py.getitem. rewrite lookup_table.
  by rewrite decide_True.
Qed.

Lemma insert_table (f : string → Z) (k : string) (v : Z) :
  k ∈ metric_names →
  <[k := v]> (table f) = table (λ k', if decide (k' = k) then v else f k').
Proof.
  intros Hk. apply map_eq. intros i. rewrite lookup_insert, !lookup_table.
  destruct (decide (k = i)) as [->|Hne].
  - rewrite !decide_True by done. done.
  - case_decide; [|done]. by rewrite decide_False.
Qed.

Lemma iadd_table (f : string → Z) (k : string) (a : Z) :
  k ∈ metric_names →
  Py.iadd (table f) k a
  = Ok (table (λ k', if decide (k' = k) then f k' + a else f k')).
Proof.
  intros Hk. unfold Py.iadd. rewrite getitem_table by done. unfold bind.
  rewrite insert_table by done. f_equal. apply table_ext.
  intros k' _. by case_decide; subst.
Qed.

Lemma rename_table (f : string → Z) :
  Py.rename_keys (table f) "-" "_" = out_table f.
Proof. reflexivity. Qed.

(** ** One iteration of the loop *)

Lemma measured_is_metric (p : string) :
  Py.contains metrics_measured p = true → p ∈ metric_names.
Proof.
  unfold Py.contains. intros H. apply bool_decide_eq_true in H.
  destruct H as [v Hv]. unfold metrics_measured in Hv. cbn in Hv.
  unfold metric_names.
  repeat (rewrite lookup_insert in Hv; case_decide as Hd;
          [subst p; set_solver|clear Hd]).
  by rewrite lookup_empty in Hv.
Qed.

Lemma bump_table (f : string → Z) (k : string) (a : Z) (b : option string) :
  b = Some k →
  table (λ k', if decide (k' = k) then f k' + a else f k')
  = table (λ k', f k' + (if bool_decide (b = Some k') then a else 0)).
Proof.
  intros ->. apply table_ext. intros k' _.
  case_decide as Hd.
  - subst. rewrite bool_decide_eq_true_2 by done. done.
  - rewrite bool_decide_eq_false_2 by congruence. lia.
Qed.

Lemma keep_table (f : string → Z) (a : Z) (b : option string) :
  b = None →
  table f
  = table (λ k', f k' + (if bool_decide (b = Some k') then a else 0)).
Proof.
  intros ->. apply table_ext. intros k' _.
  rewrite bool_decide_eq_false_2 by done. lia.
Qed.

Lemma loop_body_skip (ps : string) (st : locals) (r : Report) :
  matches_pid ps r = false → loop_body ps st r = Ok st.
Proof. unfold matches_pid, loop_body. by intros ->. Qed.

Lemma loop_body_match (ps : string) (st : locals) (f : string → Z)
    (r : Report) :
  matches_pid ps r = true →
  all_metrics st = table f →
  loop_body ps st r
  = match fatal r with
    | Some e => Raise e
    | None =>
        Ok {| explicit_heap :=
                explicit_heap st
                + (if is_explicit r && (kind r =? KIND_HEAP)
                   then amount r else 0);
              explicit_nonheap :=
                explicit_nonheap st
                + (if is_explicit r && (kind r =? KIND_NONHEAP)
                   then amount r else 0);
              pid_found := true;
              all_metrics :=
                table (λ k, f k + (if bool_decide (bucket r = Some k)
                                   then amount r else 0)) |}
    end.
Proof.
  unfold matches_pid, loop_body, fatal, bucket, explicit_bucket,
    measured_bucket, is_explicit.
  destruct st as [eh en pf d].
  cbn [explicit_heap explicit_nonheap pid_found all_metrics].
  intros -> ->. cbn [negb].
  destruct (Py.startswith (path r) "explicit/"); cbn [andb].
  - destruct (Z.eqb_spec (units r) UNITS_BYTES) as [Hu|Hu]; cbn [negb];
      [|done].
    unfold KIND_NONHEAP, KIND_HEAP.
    destruct (Z.eqb_spec (kind r) 0) as [Hk0|Hk0];
      [replace (kind r =? 1) with false by (symmetry; apply Z.eqb_neq; lia)
      |destruct (Z.eqb_spec (kind r) 1) as [Hk1|Hk1]];
      cbn [orb bind]; try done.
    all: cbn [explicit_heap explicit_nonheap pid_found all_metrics].
    all: destruct (Py.startswith (path r) "explicit/images/");
      [|destruct (Py.str_in "top(none)/detached" (path r));
        [|destruct (Py.startswith (path r) "explicit/heap-overhead/")]].
    all: try (rewrite iadd_table by (unfold metric_names; set_solver);
              rewrite (bump_table f _ (amount r) (Some _) eq_refl)).
    all: try rewrite <- (keep_table f (amount r) None eq_refl).
    all: unfold bind, set_all_metrics;
      cbn [explicit_heap explicit_nonheap pid_found all_metrics].
    all: f_equal; f_equal; lia.
  - destruct (Py.startswith (path r) "js-main-runtime/");
      [|destruct (Py.contains metrics_measured (path r)) eqn:Hm].
    + rewrite iadd_table by (unfold metric_names; set_solver).
      rewrite (bump_table f _ (amount r) (Some _) eq_refl).
      unfold bind, set_all_metrics; cbn. f_equal; f_equal; lia.
    + rewrite iadd_table by (by apply measured_is_metric).
      rewrite (bump_table f _ (amount r) (Some _) eq_refl).
      unfold bind, set_all_metrics; cbn. f_equal; f_equal; lia.
    + rewrite <- (keep_table f (amount r) None eq_refl). f_equal; f_equal; lia.
Qed.

(** ** The whole loop *)

Lemma sum_amounts_filter_cons (p : Report → bool) (r : Report)
    (l : list Report) :
  sum_amounts (List.filter p (r :: l))
  = (if p r then amount r else 0) + sum_amounts (List.filter p l).
Proof. cbn [List.filter]. by destruct (p r). Qed.

Lemma explicit_of_kind_match (ps : string) (k : Z) (r : Report) :
  matches_pid ps r = true →
  explicit_of_kind ps k r = is_explicit r && (kind r =? k).
Proof. unfold explicit_of_kind. by intros ->. Qed.

Lemma explicit_of_kind_skip (ps : string) (k : Z) (r : Report) :
  matches_pid ps r = false → explicit_of_kind ps k r = false.
Proof. unfold explicit_of_kind. by intros ->. Qed.

Lemma feeds_match (ps k : string) (r : Report) :
  matches_pid ps r = true →
  feeds ps k r = bool_decide (bucket r = Some k).
Proof. unfold feeds. by intros ->. Qed.

Lemma feeds_skip (ps k : string) (r : Report) :
  matches_pid ps r = false → feeds ps k r = false.
Proof. unfold feeds. by intros ->. Qed.

Lemma locals_after_nil (ps : string) (st : locals) (f : string → Z) :
  all_metrics st = table f → locals_after ps st f [] = st.
Proof.
  destruct st as [eh en pf d].
  cbn [all_metrics]. intros ->. unfold locals_after.
  cbn [explicit_heap explicit_nonheap pid_found List.filter existsb
       sum_amounts foldr].
  rewrite !Z.add_0_r, orb_false_r. f_equal.
  apply table_ext. intros k _. lia.
Qed.

Lemma locals_after_skip (ps : string) (st : locals) (f : string → Z)
    (r : Report) (l : list Report) :
  matches_pid ps r = false →
  locals_after ps st f (r :: l) = locals_after ps st f l.
Proof.
  intros Hm. unfold locals_after.
  rewrite !sum_amounts_filter_cons. cbn [existsb].
  rewrite !explicit_of_kind_skip, Hm by done. cbn [orb].
  f_equal. apply table_ext. intros k _.
  by rewrite sum_amounts_filter_cons, feeds_skip.
Qed.

Lemma locals_after_match (ps : string) (st : locals) (f : string → Z)
    (r : Report) (l : list Report) :
  matches_pid ps r = true →
  locals_after ps
    {| explicit_heap :=
         explicit_heap st
         + (if is_explicit r && (kind r =? KIND_HEAP) then amount r else 0);
       explicit_nonheap :=
         explicit_nonheap st
         + (if is_explicit r && (kind r =? KIND_NONHEAP)
            then amount r else 0);
       pid_found := true;
       all_metrics :=
         table (λ k, f k + (if bool_decide (bucket r = Some k)
                            then amount r else 0)) |}
    (λ k, f k + (if bool_decide (bucket r = Some k) then amount r else 0)) l
  = locals_after ps st f (r :: l).
Proof.
  intros Hm. unfold locals_after.
  cbn [explicit_heap explicit_nonheap pid_found all_metrics].
  rewrite !sum_amounts_filter_cons. cbn [existsb].
  rewrite !explicit_of_kind_match, Hm by done. cbn [orb].
  rewrite orb_true_r. f_equal; [lia..|].
  apply table_ext. intros k _.
  rewrite sum_amounts_filter_cons, feeds_match by done. lia.
Qed.

Lemma for_reports_spec (ps : string) (l : list Report) :
  ∀ (st : locals) (f : string → Z),
    all_metrics st = table f →
    for_reports ps st l
    = match first_fatal ps l with
      | Some e => Raise e
      | None => Ok (locals_after ps st f l)
      end.
Proof.
  induction l as [|r l IH]; intros st f Hst.
  - cbn [for_reports first_fatal]. by rewrite locals_after_nil.
  - cbn [for_reports first_fatal].
    destruct (matches_pid ps r) eqn:Hm.
    + rewrite (loop_body_match ps st f r Hm Hst).
      destruct (fatal r) as [e|]; [done|]. cbn [bind].
      erewrite IH by (cbn [all_metrics]; reflexivity).
      destruct (first_fatal ps l); [done|].
      by rewrite locals_after_match.
    + rewrite loop_body_skip by done. cbn [bind].
      rewrite (IH st f Hst). by rewrite locals_after_skip.
Qed.

(** ** The whole function *)

Lemma out_table_ext (f g : string → Z) :
  (∀ k, k ∈ metric_names → f k = g k) → out_table f = out_table g.
Proof.
  intros Hfg. unfold out_table. f_equal. apply list_fmap_ext.
  intros i k Hk. f_equal. apply Hfg. by eapply list_elem_of_lookup_2.
Qed.

Lemma get_memory_measures_spec (mr : MemoryReport) (pid : Z) :
  _get_memory_measures mr pid
  = match first_fatal (pid_marker pid) (reports mr) with
    | Some e => Raise e
    | None =>
        if existsb (matches_pid (pid_marker pid)) (reports mr) then
          Ok (out_table (final_metrics (pid_marker pid) (reports mr)))
        else Raise (ValueError (no_measurements_msg pid))
    end.
Proof.
  unfold _get_memory_measures.
  rewrite (for_reports_spec _ _ _ _ all_metrics_init_table).
  destruct (first_fatal _ _); [done|]. cbn [bind].
  unfold locals_after, locals_init.
  cbn [explicit_heap explicit_nonheap pid_found all_metrics orb].
  destruct (existsb _ _); cbn [negb]; [|done].
  rewrite getitem_table by (unfold metric_names; set_solver). cbn [bind].
  rewrite insert_table by (unfold metric_names; set_solver).
  rewrite getitem_table by (unfold metric_names; set_solver). cbn [bind].
  rewrite insert_table by (unfold metric_names; set_solver).
  rewrite rename_table. reflexivity.
Qed.

(** ** Which records feed which key *)

Lemma sum_amounts_filter_ext (p q : Report → bool) (l : list Report) :
  (∀ r, p r = q r) →
  sum_amounts (List.filter p l) = sum_amounts (List.filter q l).
Proof.
  intros Hpq. induction l as [|r l IH]; [done|].
  rewrite !sum_amounts_filter_cons, IH, Hpq. done.
Qed.

Lemma sum_amounts_filter_none (p : Report → bool) (l : list Report) :
  (∀ r, r ∈ l → p r = false) → sum_amounts (List.filter p l) = 0.
Proof.
  induction l as [|r l IH]; intros Hp; [done|].
  rewrite sum_amounts_filter_cons, IH, Hp.
  - done.
  - apply list_elem_of_here.
  - intros r' Hr'. apply Hp. by apply list_elem_of_further.
Qed.

Lemma measured_bucket_Some (p k : string) :
  measured_bucket p = Some k →
  k = "js-main-runtime" ∨ (k = p ∧ Py.contains metrics_measured k = true).
Proof.
  unfold measured_bucket.
  destruct (Py.startswith p "js-main-runtime/"); [intros [= <-]; by left|].
  destruct (Py.contains metrics_measured p) eqn:Hm; [|done].
  intros [= <-]. by right.
Qed.

Lemma feeds_images (ps : string) (r : Report) :
  feeds ps "images" r = adds_to_images ps r.
Proof.
  unfold feeds, adds_to_images, bucket, explicit_bucket.
  destruct (matches_pid ps r); [|done]. cbn [andb].
  destruct (is_explicit r); cbn [andb].
  - destruct (Py.startswith (path r) "explicit/images/"); [done|].
    destruct (Py.str_in _ _); [done|]. by destruct (Py.startswith _ _).
  - apply bool_decide_eq_false_2. intros H.
    by destruct (measured_bucket_Some _ _ H) as [?|[_ ?]].
Qed.

Lemma feeds_top_none_detached (ps : string) (r : Report) :
  feeds ps "top-none-detached" r = adds_to_top_none_detached ps r.
Proof.
  unfold feeds, adds_to_top_none_detached, bucket, explicit_bucket.
  destruct (matches_pid ps r); [|done]. cbn [andb].
  destruct (is_explicit r); cbn [andb].
  - destruct (Py.startswith (path r) "explicit/images/"); [done|].
    destruct (Py.str_in _ _); [done|]. by destruct (Py.startswith _ _).
  - apply bool_decide_eq_false_2. intros H.
    by destruct (measured_bucket_Some _ _ H) as [?|[_ ?]].
Qed.

Lemma feeds_heap_overhead (ps : string) (r : Report) :
  feeds ps "heap-overhead" r = adds_to_heap_overhead ps r.
Proof.
  unfold feeds, adds_to_heap_overhead, bucket, explicit_bucket.
  destruct (matches_pid ps r); [|done]. cbn [andb].
  destruct (is_explicit r); cbn [andb].
  - destruct (Py.startswith (path r) "explicit/images/"); [done|].
    destruct (Py.str_in _ _); [done|]. by destruct (Py.startswith _ _).
  - apply bool_decide_eq_false_2. intros H.
    by destruct (measured_bucket_Some _ _ H) as [?|[_ ?]].
Qed.

Lemma feeds_measured (ps k : string) (r : Report) :
  Py.contains metrics_measured k = true →
  feeds ps k r = has_path ps k r.
Proof.
  intros Hk. unfold feeds, has_path, bucket.
  destruct (matches_pid ps r); [|done]. cbn [andb].
  assert (Hne : Py.startswith k "explicit/" = false
                ∧ Py.startswith k "js-main-runtime/" = false
                ∧ k ≠ "images" ∧ k ≠ "top-none-detached"
                ∧ k ≠ "heap-overhead" ∧ k ≠ "js-main-runtime").
  { pose proof (measured_is_metric k Hk) as Hin.
    unfold metric_names in Hin.
    repeat (apply elem_of_cons in Hin as [->|Hin];
            [first [by repeat split|by vm_compute in Hk]|]).
    by apply elem_of_nil in Hin. }
  destruct Hne as (He & Hj & Hi & Ht & Ho & Hjs).
  destruct (String.eqb_spec (path r) k) as [Hp|Hp].
  - unfold is_explicit, measured_bucket. rewrite Hp, He, Hj, Hk.
    by apply bool_decide_eq_true_2.
  - apply bool_decide_eq_false_2.
    destruct (is_explicit r).
    + unfold explicit_bucket.
      destruct (Py.startswith (path r) "explicit/images/"); [congruence|].
      destruct (Py.str_in "top(none)/detached" (path r)); [congruence|].
      destruct (Py.startswith (path r) "explicit/heap-overhead/");
        [congruence|done].
    + intros H. destruct (measured_bucket_Some _ _ H) as [?|[? _]];
        congruence.
Qed.

(** ** Successful extractions *)

Lemma first_fatal_is_ValueError (ps : string) (l : list Report) (e : exn) :
  first_fatal ps l = Some e →
  ∃ r, r ∈ l ∧ matches_pid ps r = true ∧ is_explicit r = true
       ∧ fatal r = Some e.
Proof.
  induction l as [|r l IH]; [done|]. cbn [first_fatal].
  destruct (matches_pid ps r) eqn:Hm.
  - destruct (fatal r) as [e'|] eqn:Hf.
    + intros [= <-]. exists r. split; [apply list_elem_of_here|].
      repeat split; try done.
      unfold fatal in Hf. by destruct (is_explicit r).
    + intros H. destruct (IH H) as (r' & ? & ?).
      exists r'. split; [by apply list_elem_of_further|done].
  - intros H. destruct (IH H) as (r' & ? & ?).
    exists r'. split; [by apply list_elem_of_further|done].
Qed.

Lemma success_inv (mr : MemoryReport) (pid : Z) (m : gmap string Z) :
  _get_memory_measures mr pid = Ok m →
  first_fatal (pid_marker pid) (reports mr) = None
  ∧ existsb (matches_pid (pid_marker pid)) (reports mr) = true
  ∧ m = out_table (final_metrics (pid_marker pid) (reports mr)).
Proof.
  rewrite get_memory_measures_spec.
  destruct (first_fatal _ _); [done|].
  destruct (existsb _ _); [|done].
  by intros [= <-].
Qed.

Lemma success_intro (mr : MemoryReport) (pid : Z) :
  first_fatal (pid_marker pid) (reports mr) = None →
  existsb (matches_pid (pid_marker pid)) (reports mr) = true →
  _get_memory_measures mr pid
  = Ok (out_table (final_metrics (pid_marker pid) (reports mr))).
Proof. rewrite get_memory_measures_spec. by intros -> ->. Qed.

Lemma metric_name_elem (k : string) :
  bool_decide (k ∈ metric_names) = true → k ∈ metric_names.
Proof. apply bool_decide_eq_true_1. Qed.

(** The value of a key of a returned dictionary, on a closed input. *)
Ltac output_lookup k :=
  etrans;
  [ apply (lookup_out_table _ k); apply metric_name_elem;
    vm_compute; reflexivity
  | vm_compute; reflexivity ].

(** C2: on every successful extraction, [heap_unclassified] is the sum of
    the [heap-allocated] bucket minus the amounts of the matching
    [explicit/] records of kind HEAP, and [explicit] is that sum plus the
    amounts of the matching [explicit/] records of kind NONHEAP.  The
    values are integers and nothing clamps them: a negative difference is
    returned as it is. *)
Theorem heap_unclassified_and_explicit (mr : MemoryReport) (pid : Z)
    (m : gmap string Z) :
  _get_memory_measures mr pid = Ok m →
  let ps := pid_marker pid in
  let heap_allocated :=
    sum_amounts (List.filter (has_path ps "heap-allocated") (reports mr)) in
  let explicit_heap_total :=
    sum_amounts (List.filter (explicit_of_kind ps KIND_HEAP) (reports mr)) in
  let explicit_nonheap_total :=
    sum_amounts
      (List.filter (explicit_of_kind ps KIND_NONHEAP) (reports mr)) in
  m !! "heap_allocated" = Some heap_allocated
  ∧ m !! "heap_unclassified" = Some (heap_allocated - explicit_heap_total)
  ∧ m !! "explicit" = Some (heap_allocated + explicit_nonheap_total).
Proof.
  intros Hm. destruct (success_inv _ _ _ Hm) as (_ & _ & ->). cbv zeta.
  rewrite <- (sum_amounts_filter_ext _ _ _
                (λ r, feeds_measured (pid_marker pid) "heap-allocated" r
                        eq_refl)).
  split; [|split].
  - apply (lookup_out_table (final_metrics _ _) "heap-allocated").
    unfold metric_names. set_solver.
  - apply (lookup_out_table (final_metrics _ _) "heap-unclassified").
    unfold metric_names. set_solver.
  - apply (lookup_out_table (final_metrics _ _) "explicit").
    unfold metric_names. set_solver.
Qed.

Lemma heap_unclassified_and_explicit_witness :
  ∃ m,
    _get_memory_measures
      (mkMemoryReport 1 [heap_allocated_record; images_record; nonheap_record]
                      true) 7
    = Ok m
    ∧ m !! "heap_allocated" = Some 500
    ∧ m !! "heap_unclassified" = Some (-200)
    ∧ m !! "explicit" = Some 540.
Proof.
  eexists. split.
  - apply success_intro; vm_compute; reflexivity.
  - apply (heap_unclassified_and_explicit
             (mkMemoryReport 1
                [heap_allocated_record; images_record; nonheap_record] true)
             7).
    apply success_intro; vm_compute; reflexivity.
Defined.

(** The claim of C1 fails on the code: a record under [explicit/images/]
    whose path also contains [top(none)/detached] is added to [images]
    only. *)
Lemma derived_rules_not_all_applied :
  matches_pid (pid_marker 7) images_detached_record = true
  ∧ is_explicit images_detached_record = true
  ∧ Py.startswith (path images_detached_record) "explicit/images/" = true
  ∧ Py.str_in "top(none)/detached" (path images_detached_record) = true
  ∧ amount images_detached_record = 5
  ∧ ∃ m,
      _get_memory_measures (mkMemoryReport 1 [images_detached_record] true) 7
      = Ok m
      ∧ m !! "images" = Some 5
      ∧ m !! "top_none_detached" = Some 0.
Proof.
  repeat (split; [vm_compute; reflexivity|]).
  eexists. split; [apply success_intro; vm_compute; reflexivity|].
  split; [output_lookup "images"|output_lookup "top-none-detached"].
Qed.

(** C1, as the code has it: the three rules of the [explicit/] branch form
    one chain and the first that applies is the only one that runs.  On
    success [images] holds the amounts of the matching records under
    [explicit/images/]; [top_none_detached] those of the matching
    [explicit/] records not under [explicit/images/] whose path contains
    [top(none)/detached]; [heap_overhead] those of the matching records
    under [explicit/heap-overhead/] that none of the two earlier rules
    took. *)
Theorem derived_rules_first_match (mr : MemoryReport) (pid : Z)
    (m : gmap string Z) :
  _get_memory_measures mr pid = Ok m →
  let ps := pid_marker pid in
  m !! "images"
  = Some (sum_amounts (List.filter (adds_to_images ps) (reports mr)))
  ∧ m !! "top_none_detached"
    = Some (sum_amounts
              (List.filter (adds_to_top_none_detached ps) (reports mr)))
  ∧ m !! "heap_overhead"
    = Some (sum_amounts
              (List.filter (adds_to_heap_overhead ps) (reports mr))).
Proof.
  intros Hm. destruct (success_inv _ _ _ Hm) as (_ & _ & ->). cbv zeta.
  rewrite <- (sum_amounts_filter_ext _ _ _ (feeds_images (pid_marker pid))).
  rewrite <- (sum_amounts_filter_ext _ _ _
                (feeds_top_none_detached (pid_marker pid))).
  rewrite <- (sum_amounts_filter_ext _ _ _
                (feeds_heap_overhead (pid_marker pid))).
  split; [|split].
  - apply (lookup_out_table (final_metrics _ _) "images"). unfold metric_names. set_solver.
  - apply (lookup_out_table (final_metrics _ _) "top-none-detached").
    unfold metric_names. set_solver.
  - apply (lookup_out_table (final_metrics _ _) "heap-overhead").
    unfold metric_names. set_solver.
Qed.

Lemma derived_rules_first_match_witness :
  ∃ m,
    _get_memory_measures
      (mkMemoryReport 1
         [images_detached_record; overhead_detached_record; images_record]
         true) 7
    = Ok m
    ∧ m !! "images" = Some 705
    ∧ m !! "top_none_detached" = Some 3
    ∧ m !! "heap_overhead" = Some 0.
Proof.
  eexists. split.
  - apply success_intro; vm_compute; reflexivity.
  - apply (derived_rules_first_match
             (mkMemoryReport 1
                [images_detached_record; overhead_detached_record;
                 images_record] true) 7).
    apply success_intro; vm_compute; reflexivity.
Defined.

(** Two records of the requested process: [heap-allocated] with 500 and
    an image of kind HEAP with 200 give [heap_allocated = 500],
    [images = 200], [explicit = 500] and [heap_unclassified = 300]. *)
Example heap_allocated_and_image :
  ∃ m,
    _get_memory_measures
      (mkMemoryReport 1
         [heap_allocated_record;
          mkReport "Main Process (pid 7)" "explicit/images/foo" KIND_HEAP
                   UNITS_BYTES 200] true) 7
    = Ok m
    ∧ m !! "heap_allocated" = Some 500
    ∧ m !! "images" = Some 200
    ∧ m !! "explicit" = Some 500
    ∧ m !! "heap_unclassified" = Some 300.
Proof.
  eexists. split; [apply success_intro; vm_compute; reflexivity|].
  split; [output_lookup "heap-allocated"|].
  split; [output_lookup "images"|].
  split; [output_lookup "explicit"|output_lookup "heap-unclassified"].
Qed.

(** A record of the requested process and one of another process: only
    the first one counts. *)
Example two_processes :
  ∃ m,
    _get_memory_measures
      (mkMemoryReport 1 [other_pid_record; resident_record] true) 7
    = Ok m
    ∧ m !! "resident" = Some 1000.
Proof.
  eexists. split; [apply success_intro; vm_compute; reflexivity|].
  output_lookup "resident".
Qed.

(** ** The key set *)

Lemma dom_out_table (f : string → Z) :
  dom (out_table f) = list_to_set output_names.
Proof.
  unfold out_table. rewrite dom_list_to_map_L.
  rewrite <- list_fmap_compose. reflexivity.
Qed.

Lemma final_metrics_zero (ps k : string) (l : list Report) :
  (∀ r, r ∈ l → contributes ps k r = false) → final_metrics ps l k = 0.
Proof.
  unfold contributes, final_metrics. intros Hc.
  repeat case_decide.
  - rewrite !sum_amounts_filter_none; [done|..];
      intros r Hr; by destruct (orb_false_elim _ _ (Hc r Hr)).
  - rewrite !sum_amounts_filter_none; [done|..];
      intros r Hr; by destruct (orb_false_elim _ _ (Hc r Hr)).
  - by apply sum_amounts_filter_none.
Qed.

Lemma set_map_list_to_set (f : string → string) (l : list string) :
  set_map f (list_to_set l : gset string)
  = (list_to_set (f <$> l) : gset string).
Proof.
  apply set_eq. intros x.
  rewrite elem_of_map, elem_of_list_to_set, list_elem_of_fmap.
  by setoid_rewrite elem_of_list_to_set.
Qed.

Lemma output_names_renamed :
  (list_to_set output_names : gset string)
  = set_map (λ k, Py.replace k "-" "_")
            (dom metrics_measured ∪ dom metrics_derived).
Proof.
  unfold metrics_measured, metrics_derived.
  rewrite !dom_list_to_map_L. cbn [fmap list_fmap fst].
  rewrite <- list_to_set_app_L. rewrite set_map_list_to_set.
  reflexivity.
Qed.

Lemma output_names_size :
  size (list_to_set output_names : gset string) = 16%nat.
Proof. vm_compute. reflexivity. Qed.

Lemma metrics_sizes :
  size (dom metrics_measured) = 10%nat ∧ size (dom metrics_derived) = 6%nat.
Proof. split; vm_compute; reflexivity. Qed.

(** C3: whenever the extraction succeeds, the keys of the returned
    dictionary are exactly the sixteen names of [output_names]: the keys of
    [metrics_measured] (ten) and of [metrics_derived] (six) with every dash
    replaced by an underscore, whatever the records were; and a key that no
    record of the list contributes to holds 0. *)
Theorem output_key_set_fixed (mr : MemoryReport) (pid : Z)
    (m : gmap string Z) :
  _get_memory_measures mr pid = Ok m →
  dom m = list_to_set output_names
  ∧ dom m
    = set_map (λ k, Py.replace k "-" "_")
              (dom metrics_measured ∪ dom metrics_derived)
  ∧ size (dom metrics_measured) = 10%nat
  ∧ size (dom metrics_derived) = 6%nat
  ∧ size (dom m) = 16%nat
  ∧ ∀ k, k ∈ metric_names →
         (∀ r, r ∈ reports mr → contributes (pid_marker pid) k r = false) →
         m !! Py.replace k "-" "_" = Some 0.
Proof.
  intros Hm. destruct (success_inv _ _ _ Hm) as (_ & _ & ->).
  rewrite dom_out_table.
  split; [done|]. split; [apply output_names_renamed|].
  split; [apply metrics_sizes|]. split; [apply metrics_sizes|].
  split; [apply output_names_size|].
  intros k Hk Hc. rewrite lookup_out_table by done.
  by rewrite final_metrics_zero.
Qed.

Lemma output_key_set_fixed_witness :
  ∃ m,
    _get_memory_measures (mkMemoryReport 1 [resident_record] true) 7 = Ok m
    ∧ dom m = list_to_set output_names
    ∧ m !! "vsize" = Some 0
    ∧ m !! "heap_unclassified" = Some 0.
Proof.
  assert (Hm : _get_memory_measures
                 (mkMemoryReport 1 [resident_record] true) 7
               = Ok (out_table
                       (final_metrics (pid_marker 7) [resident_record])))
    by (apply success_intro; vm_compute; reflexivity).
  eexists. split; [exact Hm|].
  destruct (output_key_set_fixed _ _ _ Hm)
    as (Hdom & _ & _ & _ & _ & Hzero).
  split; [exact Hdom|]. split.
  - apply (Hzero "vsize").
    + apply metric_name_elem. vm_compute. reflexivity.
    + intros r Hr. apply list_elem_of_singleton in Hr as ->.
      vm_compute. reflexivity.
  - apply (Hzero "heap-unclassified").
    + apply metric_name_elem. vm_compute. reflexivity.
    + intros r Hr. apply list_elem_of_singleton in Hr as ->.
      vm_compute. reflexivity.
Defined.

(** ** No record of the requested process *)

Lemma existsb_false_Forall (p : Report → bool) (l : list Report) :
  existsb p l = false ↔ Forall (λ r, p r = false) l.
Proof.
  induction l as [|r l IH]; cbn [existsb].
  - split; [constructor|done].
  - rewrite orb_false_iff, Forall_cons, IH. done.
Qed.

Lemma first_fatal_no_match (ps : string) (l : list Report) :
  Forall (λ r, matches_pid ps r = false) l → first_fatal ps l = None.
Proof.
  induction 1 as [|r l Hr _ IH]; [done|].
  cbn [first_fatal]. by rewrite Hr.
Qed.

Lemma fatal_not_no_measurements (r : Report) (pid : Z) :
  fatal r ≠ Some (ValueError (no_measurements_msg pid)).
Proof.
  unfold fatal, bad_units_msg, bad_kind_msg, no_measurements_msg.
  destruct (is_explicit r); [|done].
  destruct (negb _);
    [|destruct (_ || _); [done|]];
    intros [= H]; lazy beta iota delta [String.append] in H;
    discriminate H.
Qed.

Lemma for_reports_skip (ps : string) (pre post : list Report) (r : Report) :
  matches_pid ps r = false →
  ∀ st, for_reports ps st (pre ++ r :: post) = for_reports ps st (pre ++ post).
Proof.
  intros Hm. induction pre as [|r0 pre IH]; intros st.
  - cbn [app for_reports]. by rewrite loop_body_skip.
  - cbn [app for_reports]. destruct (loop_body ps st r0); [|done].
    cbn [bind]. apply IH.
Qed.

(** C4: the extraction raises the [no measurements found for pid N] error
    exactly when no record of the list has the marker [(pid N)] in its
    process field.  A record of another process is skipped: taking it out
    of the list changes nothing of the outcome, so it never causes that
    error when some record matches. *)
Theorem not_found_iff_no_matching_record (mr : MemoryReport) (pid : Z) :
  (_get_memory_measures mr pid = Raise (ValueError (no_measurements_msg pid))
   ↔ Forall (λ r, Py.str_in (pid_marker pid) (process r) = false)
            (reports mr))
  ∧ ∀ pre r post,
      reports mr = pre ++ r :: post →
      Py.str_in (pid_marker pid) (process r) = false →
      _get_memory_measures mr pid
      = _get_memory_measures
          (mkMemoryReport (version mr) (pre ++ post)
                          (hasMozMallocUsableSize mr)) pid.
Proof.
  split.
  - rewrite get_memory_measures_spec. split.
    + destruct (first_fatal _ _) as [e|] eqn:Hf.
      * intros [= ->].
        destruct (first_fatal_is_ValueError _ _ _ Hf) as (r & _ & _ & _ & Hr).
        by destruct (fatal_not_no_measurements r pid).
      * destruct (existsb _ _) eqn:He; [done|].
        intros _. by apply existsb_false_Forall in He.
    + intros Hall. rewrite first_fatal_no_match by exact Hall.
      apply existsb_false_Forall in Hall.
      unfold matches_pid. by rewrite Hall.
  - intros pre r post Hl Hm. unfold _get_memory_measures.
    rewrite Hl. cbn [reports]. by rewrite for_reports_skip.
Qed.

Lemma not_found_iff_no_matching_record_witness :
  _get_memory_measures (mkMemoryReport 1 [other_pid_record] true) 7
  = Raise (ValueError "no measurements found for pid 7")
  ∧ _get_memory_measures
      (mkMemoryReport 1 [other_pid_record; resident_record] true) 7
    = _get_memory_measures (mkMemoryReport 1 [resident_record] true) 7.
Proof.
  split.
  - apply (not_found_iff_no_matching_record
             (mkMemoryReport 1 [other_pid_record] true) 7).
    repeat constructor.
  - apply (proj2 (not_found_iff_no_matching_record
                    (mkMemoryReport 1 [other_pid_record; resident_record]
                                    true) 7)
             [] other_pid_record [resident_record]); reflexivity.
Defined.

(** ** Order of the records *)

Lemma first_fatal_None_perm (ps : string) (l l' : list Report) :
  l ≡ₚ l' → first_fatal ps l = None → first_fatal ps l' = None.
Proof.
  induction 1 as [|r l l' _ IH|r1 r2 l|l1 l2 l3 _ IH1 _ IH2];
    cbn [first_fatal]; [done|..].
  - destruct (if matches_pid ps r then fatal r else None); [done|exact IH].
  - destruct (if matches_pid ps r1 then fatal r1 else None);
      destruct (if matches_pid ps r2 then fatal r2 else None); done.
  - auto.
Qed.

Lemma existsb_perm (p : Report → bool) (l l' : list Report) :
  l ≡ₚ l' → existsb p l = existsb p l'.
Proof.
  induction 1 as [|r l l' _ IH|r1 r2 l|l1 l2 l3 _ IH1 _ IH2];
    cbn [existsb]; [done|by rewrite IH| |congruence].
  by destruct (p r1), (p r2).
Qed.

Lemma sum_amounts_filter_perm (p : Report → bool) (l l' : list Report) :
  l ≡ₚ l' → sum_amounts (List.filter p l) = sum_amounts (List.filter p l').
Proof.
  induction 1 as [|r l l' _ IH|r1 r2 l|l1 l2 l3 _ IH1 _ IH2];
    rewrite ?sum_amounts_filter_cons; [done|by rewrite IH|lia|congruence].
Qed.

Lemma final_metrics_perm (ps k : string) (l l' : list Report) :
  l ≡ₚ l' → final_metrics ps l k = final_metrics ps l' k.
Proof.
  intros Hp. unfold final_metrics.
  by rewrite !(sum_amounts_filter_perm _ l l' Hp).
Qed.

(** C7: when the extraction succeeds on a report, it succeeds with the
    same dictionary on every report whose record list is a permutation of
    the first one's. *)
Theorem extraction_order_independent (mr mr' : MemoryReport) (pid : Z)
    (m : gmap string Z) :
  reports mr ≡ₚ reports mr' →
  _get_memory_measures mr pid = Ok m →
  _get_memory_measures mr' pid = Ok m.
Proof.
  intros Hp Hm. destruct (success_inv _ _ _ Hm) as (Hf & He & ->).
  rewrite get_memory_measures_spec.
  rewrite (first_fatal_None_perm _ _ _ Hp Hf).
  rewrite <- (existsb_perm _ _ _ Hp), He.
  f_equal. apply out_table_ext. intros k _.
  symmetry. by apply final_metrics_perm.
Qed.

Lemma extraction_order_independent_witness :
  _get_memory_measures
    (mkMemoryReport 1 [nonheap_record; other_pid_record; heap_allocated_record]
                    true) 7
  = Ok (out_table
          (final_metrics (pid_marker 7)
             [heap_allocated_record; nonheap_record; other_pid_record])).
Proof.
  apply (extraction_order_independent
           (mkMemoryReport 1
              [heap_allocated_record; nonheap_record; other_pid_record] true)).
  - cbn [reports].
    apply perm_trans
      with (l' := [nonheap_record; heap_allocated_record; other_pid_record]);
      [apply perm_swap|apply perm_skip, perm_swap].
  - apply success_intro; vm_compute; reflexivity.
Defined.

(** C10: the outcome depends on the requested pid and on the list under
    ["reports"] only: reports with the same list and other values under
    ["version"] and ["hasMozMallocUsableSize"] have the same outcome, be it
    a dictionary or an error. *)
Theorem outcome_depends_on_reports_only (v1 v2 : Z) (h1 h2 : bool)
    (l : list Report) (pid : Z) :
  _get_memory_measures (mkMemoryReport v1 l h1) pid
  = _get_memory_measures (mkMemoryReport v2 l h2) pid.
Proof. by rewrite !get_memory_measures_spec. Qed.

(** ** A report with one [resident] record *)

(** C8: for pid 7 and the one record with a process containing [(pid 7)],
    path [resident], kind NONHEAP, units BYTES and amount 1000, the
    extraction returns the dictionary with 1000 under [resident] and 0
    under the fifteen other keys, [explicit] and [heap_unclassified]
    among them. *)
Theorem resident_only_scenario (proc : string) (v : Z) (h : bool) :
  Py.str_in "(pid 7)" proc = true →
  _get_memory_measures
    (mkMemoryReport v
       [mkReport proc "resident" KIND_NONHEAP UNITS_BYTES 1000] h) 7
  = Ok resident_only_output.
Proof.
  intros Hproc.
  assert (Hm : matches_pid (pid_marker 7)
                 (mkReport proc "resident" KIND_NONHEAP UNITS_BYTES 1000)
               = true) by exact Hproc.
  rewrite get_memory_measures_spec. cbn [reports first_fatal existsb].
  rewrite Hm. cbn [orb].
  change (fatal (mkReport proc "resident" KIND_NONHEAP UNITS_BYTES 1000))
    with (@None exn). cbv iota.
  f_equal.
  transitivity (out_table (λ k, if decide (k = "resident") then 1000 else 0));
    [|unfold out_table, resident_only_output;
      apply (f_equal list_to_map); vm_compute; reflexivity].
  apply out_table_ext. intros k Hk.
  unfold final_metrics. rewrite !sum_amounts_filter_cons.
  rewrite !feeds_match, !explicit_of_kind_match by exact Hm.
  unfold metric_names in Hk.
  repeat (apply elem_of_cons in Hk as [->|Hk]; [vm_compute; reflexivity|]).
  by apply elem_of_nil in Hk.
Qed.

Lemma resident_only_scenario_witness :
  _get_memory_measures (mkMemoryReport 1 [resident_record] true) 7
  = Ok resident_only_output
  ∧ resident_only_output !! "resident" = Some 1000
  ∧ resident_only_output !! "explicit" = Some 0
  ∧ resident_only_output !! "heap_unclassified" = Some 0.
Proof.
  split.
  - apply (resident_only_scenario "Main Process (pid 7)" 1 true).
    vm_compute. reflexivity.
  - unfold resident_only_output. cbn [list_to_map foldr uncurry].
    repeat split; by simplify_map_eq.
Defined.

(** ** Records outside [explicit/] *)

Lemma loop_body_with_kind_units (ps : string) (st : locals) (r : Report)
    (k u : Z) :
  is_explicit r = false →
  loop_body ps st (with_kind_units r k u) = loop_body ps st r.
Proof.
  unfold is_explicit, loop_body, with_kind_units.
  cbn [process path kind units amount]. by intros ->.
Qed.

Lemma for_reports_with_kind_units (ps : string) (pre post : list Report)
    (r : Report) (k u : Z) :
  is_explicit r = false →
  ∀ st, for_reports ps st (pre ++ with_kind_units r k u :: post)
        = for_reports ps st (pre ++ r :: post).
Proof.
  intros He. induction pre as [|r0 pre IH]; intros st.
  - cbn [app for_reports]. by rewrite loop_body_with_kind_units.
  - cbn [app for_reports]. destruct (loop_body ps st r0); [|done].
    cbn [bind]. apply IH.
Qed.

Lemma bucket_not_explicit (r : Report) :
  is_explicit r = false → bucket r = measured_bucket (path r).
Proof. unfold bucket. by intros ->. Qed.

(** C9: units and kind are looked at under [explicit/] only.  For a
    record of the requested process whose path does not start with
    [explicit/]: in every state the loop reaches, the iteration on the
    record raises nothing, leaves the two explicit totals alone and adds
    the amount to the key the path selects ([js-main-runtime] for a path
    under [js-main-runtime/], the path itself when it is a measured name,
    no key otherwise); and giving the record any other kind and units, at
    any place of any list, changes nothing of the outcome. *)
Theorem units_and_kind_unchecked_outside_explicit (pid : Z) (r : Report) :
  matches_pid (pid_marker pid) r = true →
  is_explicit r = false →
  (∀ pre st,
     for_reports (pid_marker pid) locals_init pre = Ok st →
     ∃ st',
       loop_body (pid_marker pid) st r = Ok st'
       ∧ explicit_heap st' = explicit_heap st
       ∧ explicit_nonheap st' = explicit_nonheap st
       ∧ pid_found st' = true
       ∧ ∀ k,
           all_metrics st' !! k
           = (λ v, if bool_decide (measured_bucket (path r) = Some k)
                   then v + amount r else v) <$> all_metrics st !! k)
  ∧ ∀ k u v h pre post,
      _get_memory_measures
        (mkMemoryReport v (pre ++ with_kind_units r k u :: post) h) pid
      = _get_memory_measures (mkMemoryReport v (pre ++ r :: post) h) pid.
Proof.
  intros Hm He. split.
  - intros pre st Hpre.
    rewrite (for_reports_spec _ _ _ _ all_metrics_init_table) in Hpre.
    destruct (first_fatal _ pre); [done|].
    injection Hpre as <-.
    erewrite loop_body_match by (exact Hm || reflexivity).
    unfold fatal. rewrite He, bucket_not_explicit by done.
    eexists. split; [reflexivity|].
    cbn [explicit_heap explicit_nonheap pid_found all_metrics andb].
    repeat split; [lia..|].
    intros k. unfold locals_after. cbn [all_metrics].
    rewrite !lookup_table. case_decide; [|done]. cbn [fmap option_fmap
      option_map]. by case_bool_decide; f_equal; lia.
  - intros k u v h pre post. unfold _get_memory_measures. cbn [reports].
    by rewrite for_reports_with_kind_units.
Qed.

Lemma units_and_kind_unchecked_outside_explicit_witness :
  (∃ st',
     loop_body (pid_marker 7) locals_init odd_resident_record = Ok st'
     ∧ explicit_heap st' = 0
     ∧ explicit_nonheap st' = 0
     ∧ pid_found st' = true
     ∧ all_metrics st' !! "resident" = Some 1000)
  ∧ _get_memory_measures (mkMemoryReport 1 [odd_resident_record] true) 7
    = _get_memory_measures (mkMemoryReport 1 [resident_record] true) 7.
Proof.
  assert (Hm : matches_pid (pid_marker 7) odd_resident_record = true)
    by (vm_compute; reflexivity).
  assert (Hr : matches_pid (pid_marker 7) resident_record = true)
    by (vm_compute; reflexivity).
  split.
  - destruct (proj1 (units_and_kind_unchecked_outside_explicit
                       7 odd_resident_record Hm eq_refl)
                [] locals_init eq_refl)
      as (st' & Hst' & Hh & Hn & Hf & Hk).
    exists st'. split; [exact Hst'|]. split; [exact Hh|].
    split; [exact Hn|]. split; [exact Hf|].
    rewrite (Hk "resident"). reflexivity.
  - apply (proj2 (units_and_kind_unchecked_outside_explicit
                    7 resident_record Hr eq_refl) 7 3 1 true [] []).
Defined.

(** ** Records that fail the checks of the [explicit/] branch *)

Lemma first_fatal_app (ps : string) (pre l : list Report) :
  first_fatal ps (pre ++ l)
  = match first_fatal ps pre with
    | Some e => Some e
    | None => first_fatal ps l
    end.
Proof.
  induction pre as [|r pre IH]; [done|].
  cbn [app first_fatal].
  by destruct (if matches_pid ps r then fatal r else None).
Qed.

Lemma fatal_bad_units (r : Report) :
  is_explicit r = true → units r ≠ UNITS_BYTES →
  fatal r = Some (ValueError (bad_units_msg (path r) (units r))).
Proof.
  intros He Hu. unfold fatal. rewrite He.
  by destruct (Z.eqb_spec (units r) UNITS_BYTES).
Qed.

Lemma fatal_bad_kind (r : Report) :
  is_explicit r = true → units r = UNITS_BYTES →
  kind r ≠ KIND_NONHEAP → kind r ≠ KIND_HEAP →
  fatal r = Some (ValueError (bad_kind_msg (path r) (kind r))).
Proof.
  intros He Hu Hn Hh. unfold fatal. rewrite He, Hu, Z.eqb_refl.
  cbn [negb].
  destruct (Z.eqb_spec (kind r) KIND_NONHEAP); [done|].
  by destruct (Z.eqb_spec (kind r) KIND_HEAP).
Qed.

Lemma fatal_Some_inv (r : Report) (e : exn) :
  fatal r = Some e →
  (units r ≠ UNITS_BYTES
   ∧ e = ValueError (bad_units_msg (path r) (units r)))
  ∨ (units r = UNITS_BYTES ∧ kind r ≠ KIND_NONHEAP ∧ kind r ≠ KIND_HEAP
     ∧ e = ValueError (bad_kind_msg (path r) (kind r))).
Proof.
  unfold fatal. destruct (is_explicit r); [|done].
  destruct (Z.eqb_spec (units r) UNITS_BYTES) as [Hu|Hu]; cbn [negb].
  - destruct (Z.eqb_spec (kind r) KIND_NONHEAP); [done|].
    destruct (Z.eqb_spec (kind r) KIND_HEAP); [done|].
    cbn [orb]. intros [= <-]. by right.
  - intros [= <-]. by left.
Qed.

Lemma first_fatal_passes (ps : string) (l : list Report) :
  Forall (passes_checks ps) l → first_fatal ps l = None.
Proof.
  induction 1 as [|r l Hr _ IH]; [done|].
  cbn [first_fatal]. destruct (matches_pid ps r) eqn:Hm; [|exact IH].
  destruct (fatal r) as [e|] eqn:Hf; [|exact IH].
  destruct (first_fatal_is_ValueError ps [r] e) as (r' & Hr' & _ & He & _).
  { cbn [first_fatal]. by rewrite Hm, Hf. }
  apply list_elem_of_singleton in Hr' as ->.
  destruct (Hr Hm He) as [Hu Hk].
  destruct (fatal_Some_inv _ _ Hf) as [[? _]|(_ & ? & ? & _)];
    [done|by destruct Hk].
Qed.

Lemma first_fatal_of_elem (ps : string) (l : list Report) (r : Report) :
  r ∈ l → matches_pid ps r = true → is_Some (fatal r) →
  is_Some (first_fatal ps l).
Proof.
  intros Hr Hm Hf. induction l as [|r0 l IH]; [by apply elem_of_nil in Hr|].
  cbn [first_fatal].
  apply elem_of_cons in Hr as [<-|Hr].
  - rewrite Hm. by destruct Hf as [e ->].
  - destruct (if matches_pid ps r0 then fatal r0 else None); [done|auto].
Qed.

Lemma raise_of_first_fatal (mr : MemoryReport) (pid : Z) (e : exn) :
  first_fatal (pid_marker pid) (reports mr) = Some e →
  _get_memory_measures mr pid = Raise e.
Proof. rewrite get_memory_measures_spec. by intros ->. Qed.

Lemma fatal_record_raises (mr : MemoryReport) (pid : Z) (r : Report) :
  r ∈ reports mr →
  matches_pid (pid_marker pid) r = true →
  is_Some (fatal r) →
  ∃ r0, r0 ∈ reports mr
        ∧ validation_error_for (pid_marker pid)
            (_get_memory_measures mr pid) r0.
Proof.
  intros Hr Hm Hf.
  destruct (first_fatal_of_elem _ _ _ Hr Hm Hf) as [e He].
  rewrite (raise_of_first_fatal _ _ _ He).
  destruct (first_fatal_is_ValueError _ _ _ He) as (r0 & ? & ? & ? & Hf0).
  exists r0. split; [done|]. split; [done|]. split; [done|].
  destruct (fatal_Some_inv _ _ Hf0) as [[? ->]|(? & ? & ? & ->)];
    [by left|by right].
Qed.

Lemma first_fatal_record_raises (mr : MemoryReport) (pid : Z)
    (pre post : list Report) (r : Report) (e : exn) :
  reports mr = pre ++ r :: post →
  Forall (passes_checks (pid_marker pid)) pre →
  matches_pid (pid_marker pid) r = true →
  fatal r = Some e →
  _get_memory_measures mr pid = Raise e.
Proof.
  intros Hl Hpre Hm Hf. apply raise_of_first_fatal.
  rewrite Hl, first_fatal_app, first_fatal_passes by done.
  cbn [first_fatal]. by rewrite Hm, Hf.
Qed.

(** The claim of C5 fails on the code: the loop stops at the first record
    that fails a check, so a record with bad units that comes after a
    record with a bad kind is never named. *)
Lemma bad_units_record_not_named :
  bad_units_record ∈ [bad_kind_record; bad_units_record]
  ∧ matches_pid (pid_marker 7) bad_units_record = true
  ∧ is_explicit bad_units_record = true
  ∧ units bad_units_record ≠ UNITS_BYTES
  ∧ _get_memory_measures
      (mkMemoryReport 1 [bad_kind_record; bad_units_record] true) 7
    = Raise (ValueError "bad kind for an explicit/ report: explicit/bar, 2")
  ∧ _get_memory_measures
      (mkMemoryReport 1 [bad_kind_record; bad_units_record] true) 7
    ≠ Raise (ValueError (bad_units_msg (path bad_units_record)
                                       (units bad_units_record))).
Proof.
  split; [set_solver|].
  split; [vm_compute; reflexivity|]. split; [vm_compute; reflexivity|].
  split; [done|].
  rewrite (raise_of_first_fatal _ 7
             (ValueError "bad kind for an explicit/ report: explicit/bar, 2"))
    by (vm_compute; reflexivity).
  split; [reflexivity|]. vm_compute. discriminate.
Qed.

(** C5, as the code has it: a report that holds a record of the requested
    process under [explicit/] with units other than BYTES never yields a
    dictionary: the extraction raises the [ValueError] of the first record
    of the list that fails a check of the [explicit/] branch.  It names
    the path and the units of the record at hand when every record before
    it passes the checks. *)
Theorem bad_units_raise (mr : MemoryReport) (pid : Z) (r : Report) :
  r ∈ reports mr →
  matches_pid (pid_marker pid) r = true →
  is_explicit r = true →
  units r ≠ UNITS_BYTES →
  (∃ r0, r0 ∈ reports mr
         ∧ validation_error_for (pid_marker pid)
             (_get_memory_measures mr pid) r0)
  ∧ ∀ pre post,
      reports mr = pre ++ r :: post →
      Forall (passes_checks (pid_marker pid)) pre →
      _get_memory_measures mr pid
      = Raise (ValueError (bad_units_msg (path r) (units r))).
Proof.
  intros Hr Hm He Hu.
  pose proof (fatal_bad_units r He Hu) as Hf. split.
  - apply (fatal_record_raises mr pid r Hr Hm). by rewrite Hf.
  - intros pre post Hl Hpre.
    by apply (first_fatal_record_raises mr pid pre post r).
Qed.

Lemma bad_units_raise_witness :
  _get_memory_measures
    (mkMemoryReport 1 [resident_record; bad_units_record; bad_kind_record]
                    true) 7
  = Raise (ValueError "bad units for an explicit/ report: explicit/foo, 2").
Proof.
  apply (proj2 (bad_units_raise
                  (mkMemoryReport 1
                     [resident_record; bad_units_record; bad_kind_record]
                     true) 7 bad_units_record
                  ltac:(set_solver) eq_refl eq_refl ltac:(done))
           [resident_record] [bad_kind_record] eq_refl).
  apply Forall_singleton. intros _ He. vm_compute in He. discriminate He.
Defined.

(** The claim of C6 fails on the code in the same way: a record with a bad
    kind that comes after a record with bad units is never named. *)
Lemma bad_kind_record_not_named :
  bad_kind_record ∈ [bad_units_record; bad_kind_record]
  ∧ matches_pid (pid_marker 7) bad_kind_record = true
  ∧ is_explicit bad_kind_record = true
  ∧ units bad_kind_record = UNITS_BYTES
  ∧ kind bad_kind_record ≠ KIND_HEAP
  ∧ kind bad_kind_record ≠ KIND_NONHEAP
  ∧ _get_memory_measures
      (mkMemoryReport 1 [bad_units_record; bad_kind_record] true) 7
    = Raise (ValueError "bad units for an explicit/ report: explicit/foo, 2")
  ∧ _get_memory_measures
      (mkMemoryReport 1 [bad_units_record; bad_kind_record] true) 7
    ≠ Raise (ValueError (bad_kind_msg (path bad_kind_record)
                                      (kind bad_kind_record))).
Proof.
  split; [set_solver|].
  split; [vm_compute; reflexivity|]. split; [vm_compute; reflexivity|].
  split; [done|]. split; [done|]. split; [done|].
  rewrite (raise_of_first_fatal _ 7
             (ValueError "bad units for an explicit/ report: explicit/foo, 2"))
    by (vm_compute; reflexivity).
  split; [reflexivity|]. vm_compute. discriminate.
Qed.

(** C6, as the code has it: a report that holds a record of the requested
    process under [explicit/] with units BYTES and a kind that is neither
    HEAP nor NONHEAP never yields a dictionary: the extraction raises the
    [ValueError] of the first record of the list that fails a check of the
    [explicit/] branch.  It names the path and the kind of the record at
    hand when every record before it passes the checks. *)
Theorem bad_kind_raise (mr : MemoryReport) (pid : Z) (r : Report) :
  r ∈ reports mr →
  matches_pid (pid_marker pid) r = true →
  is_explicit r = true →
  units r = UNITS_BYTES →
  kind r ≠ KIND_HEAP →
  kind r ≠ KIND_NONHEAP →
  (∃ r0, r0 ∈ reports mr
         ∧ validation_error_for (pid_marker pid)
             (_get_memory_measures mr pid) r0)
  ∧ ∀ pre post,
      reports mr = pre ++ r :: post →
      Forall (passes_checks (pid_marker pid)) pre →
      _get_memory_measures mr pid
      = Raise (ValueError (bad_kind_msg (path r) (kind r))).
Proof.
  intros Hr Hm He Hu Hh Hn.
  pose proof (fatal_bad_kind r He Hu Hn Hh) as Hf. split.
  - apply (fatal_record_raises mr pid r Hr Hm). by rewrite Hf.
  - intros pre post Hl Hpre.
    by apply (first_fatal_record_raises mr pid pre post r).
Qed.

Lemma bad_kind_raise_witness :
  _get_memory_measures
    (mkMemoryReport 1 [images_record; bad_kind_record; bad_units_record]
                    true) 7
  = Raise (ValueError "bad kind for an explicit/ report: explicit/bar, 2").
Proof.
  apply (proj2 (bad_kind_raise
                  (mkMemoryReport 1
                     [images_record; bad_kind_record; bad_units_record]
                     true) 7 bad_kind_record
                  ltac:(set_solver) eq_refl eq_refl eq_refl
                  ltac:(done) ltac:(done))
           [images_record] [bad_units_record] eq_refl).
  apply Forall_singleton. intros _ _. split; [reflexivity|by right].
Defined.

(** ** The rule on the JSON objects: agreement with the typed records *)

Lemma dict_loop_body_of_report (ps : string) (st : locals) (r : Report) :
  MemoryReportExtraction.loop_body ps st (MemoryReportExtraction.of_report r)
  = loop_body ps st r.
Proof. reflexivity. Qed.

Lemma dict_for_reports_of_report (ps : string) (l : list Report) :
  ∀ st,
    MemoryReportExtraction.for_reports ps st
      (MemoryReportExtraction.of_report <$> l)
    = for_reports ps st l.
Proof.
  induction l as [|r l IH]; intros st; [done|].
  cbn [fmap list_fmap MemoryReportExtraction.for_reports for_reports].
  rewrite dict_loop_body_of_report.
  destruct (loop_body ps st r); [|done]. cbn [bind]. apply IH.
Qed.


Lemma dict_loop_body_spec (ps : string) (st : locals)
    (r : MemoryReportExtraction.ReportDict) :
  MemoryReportExtraction.loop_body ps st r
  = match missing_key ps r with
    | Some k => Raise (KeyError k)
    | None => loop_body ps st (as_report r)
    end.
Proof.
  destruct r as [[p|] pa k u a]; [|reflexivity].
  unfold missing_key. cbn [MemoryReportExtraction.k_process].
  destruct (Py.str_in ps p) eqn:Hp; cbn [negb].
  - destruct pa as [pa|], k as [k|], u as [u|], a as [a|];
      cbn [MemoryReportExtraction.k_path MemoryReportExtraction.k_kind
           MemoryReportExtraction.k_units MemoryReportExtraction.k_amount
           MemoryReportExtraction.has_key negb];
      try (unfold MemoryReportExtraction.loop_body;
           cbn [MemoryReportExtraction.k_process MemoryReportExtraction.k_path
                MemoryReportExtraction.k_kind MemoryReportExtraction.k_units
                MemoryReportExtraction.k_amount
                MemoryReportExtraction.subscript bind];
           rewrite Hp; reflexivity).
    apply (dict_loop_body_of_report ps st (mkReport p pa k u a)).
  - rewrite loop_body_skip by exact Hp.
    unfold MemoryReportExtraction.loop_body.
    cbn [MemoryReportExtraction.k_process MemoryReportExtraction.subscript
         bind].
    by rewrite Hp.
Qed.

Lemma dict_for_reports_complete (ps : string)
    (l : list MemoryReportExtraction.ReportDict) :
  Forall (λ r, missing_key ps r = None) l →
  ∀ st,
    MemoryReportExtraction.for_reports ps st l
    = for_reports ps st (as_report <$> l).
Proof.
  induction 1 as [|r l Hr _ IH]; intros st; [done|].
  cbn [fmap list_fmap MemoryReportExtraction.for_reports for_reports].
  rewrite dict_loop_body_spec, Hr.
  destruct (loop_body ps st (as_report r)); [|done]. cbn [bind]. apply IH.
Qed.


Lemma dict_for_reports_app (ps : string)
    (l1 l2 : list MemoryReportExtraction.ReportDict) :
  ∀ st,
    MemoryReportExtraction.for_reports ps st (l1 ++ l2)
    = (let* st' := MemoryReportExtraction.for_reports ps st l1 in
       MemoryReportExtraction.for_reports ps st' l2).
Proof.
  induction l1 as [|r l1 IH]; intros st; [done|].
  cbn [app MemoryReportExtraction.for_reports].
  destruct (MemoryReportExtraction.loop_body ps st r); [|done].
  cbn [bind]. apply IH.
Qed.

Lemma for_reports_passes (ps : string) (l : list Report) :
  Forall (passes_checks ps) l →
  ∃ st, for_reports ps locals_init l = Ok st.
Proof.
  intros Hl.
  rewrite (for_reports_spec _ _ _ _ all_metrics_init_table).
  rewrite first_fatal_passes by done. by eexists.
Qed.

(** X2: a record of the requested process that lacks one of the keys
    ["path"], ["kind"], ["units"], ["amount"] (or any record without
    ["process"]) makes the method raise [KeyError] with the first absent
    key, in the order the loop reads them, when the records before it
    have their keys and pass the checks.  The keys ["kind"] and ["units"]
    are read for every record of the process, also outside
    [explicit/]. *)
Theorem missing_key_raises (mrd : MemoryReportExtraction.MemoryReportDict)
    (pid : Z) (pre post : list MemoryReportExtraction.ReportDict)
    (r : MemoryReportExtraction.ReportDict) (k : string) :
  MemoryReportExtraction.k_reports mrd = Some (pre ++ r :: post) →
  Forall (λ r', missing_key (pid_marker pid) r' = None) pre →
  Forall (passes_checks (pid_marker pid)) (as_report <$> pre) →
  missing_key (pid_marker pid) r = Some k →
  MemoryReportExtraction._get_memory_measures mrd pid = Raise (KeyError k).
Proof.
  intros Hl Hkeys Hpre Hr.
  unfold MemoryReportExtraction._get_memory_measures. rewrite Hl.
  cbn [MemoryReportExtraction.subscript bind].
  rewrite dict_for_reports_app, dict_for_reports_complete by done.
  destruct (for_reports_passes _ _ Hpre) as [st ->].
  cbn [bind MemoryReportExtraction.for_reports].
  by rewrite dict_loop_body_spec, Hr.
Qed.

Lemma missing_key_raises_witness :
  MemoryReportExtraction._get_memory_measures
    (MemoryReportExtraction.mkMemoryReportDict
       (Some 1) (Some [resident_dict; no_kind_dict]) (Some true) []) 7
  = Raise (KeyError "kind").
Proof.
  apply (missing_key_raises _ 7 [resident_dict] [] no_kind_dict "kind").
  - reflexivity.
  - apply Forall_singleton. vm_compute. reflexivity.
  - apply Forall_singleton. intros _ He. vm_compute in He. discriminate He.
  - vm_compute. reflexivity.
Defined.

Lemma dict_for_reports_skip (ps : string)
    (pre post : list MemoryReportExtraction.ReportDict)
    (r : MemoryReportExtraction.ReportDict) (p : string) :
  MemoryReportExtraction.k_process r = Some p →
  Py.str_in ps p = false →
  ∀ st,
    MemoryReportExtraction.for_reports ps st (pre ++ r :: post)
    = MemoryReportExtraction.for_reports ps st (pre ++ post).
Proof.
  intros Hp Hm st. rewrite !dict_for_reports_app.
  destruct (MemoryReportExtraction.for_reports ps st pre) as [st'|]; [|done].
  cbn [bind MemoryReportExtraction.for_reports].
  unfold MemoryReportExtraction.loop_body at 1. rewrite Hp.
  cbn [MemoryReportExtraction.subscript bind]. by rewrite Hm.
Qed.

(** X3: a record of another process is left before any other key is
    read: whatever keys it has or lacks besides ["process"], the outcome
    is the one of the list without it. *)
Theorem other_process_keys_unread (pid : Z) (proc : string)
    (pa : option string) (k u a : option Z)
    (v : option Z) (h : option bool) (o : list string)
    (pre post : list MemoryReportExtraction.ReportDict) :
  Py.str_in (pid_marker pid) proc = false →
  MemoryReportExtraction._get_memory_measures
    (MemoryReportExtraction.mkMemoryReportDict v
       (Some (pre ++ MemoryReportExtraction.mkReportDict (Some proc) pa k u a
                     :: post)) h o) pid
  = MemoryReportExtraction._get_memory_measures
      (MemoryReportExtraction.mkMemoryReportDict v (Some (pre ++ post)) h o)
      pid.
Proof.
  intros Hm. unfold MemoryReportExtraction._get_memory_measures.
  cbn [MemoryReportExtraction.k_reports MemoryReportExtraction.subscript bind].
  by rewrite (dict_for_reports_skip _ pre post
                (MemoryReportExtraction.mkReportDict (Some proc) pa k u a)
                proc eq_refl Hm).
Qed.

Lemma other_process_keys_unread_witness :
  MemoryReportExtraction._get_memory_measures
    (MemoryReportExtraction.mkMemoryReportDict
       (Some 1) (Some [resident_dict; bare_other_dict]) (Some true) []) 7
  = MemoryReportExtraction._get_memory_measures
      (MemoryReportExtraction.mkMemoryReportDict
         (Some 1) (Some [resident_dict]) (Some true) []) 7.
Proof.
  apply (other_process_keys_unread 7 "Web Content (pid 71)" None None None
           None (Some 1) (Some true) [] [resident_dict] []).
  vm_compute. reflexivity.
Defined.

(** ** [predicate] and [action] *)





Lemma prefix_append (a b : string) : String.prefix a (a +:+ b) = true.
Proof.
  induction a as [|c a IH]; [by destruct b|].
  change (String c a +:+ b) with (String c (a +:+ b)).
  cbn [String.prefix]. by destruct (Ascii.ascii_dec c c).
Qed.



(** X6: for a memory report whose objects have all their keys, [action]
    stores under ["memory_measures"] exactly the dictionary of the typed
    function and logs nothing, or logs the message of its [ValueError]
    after the prefix and leaves the processed crash as it was. *)
Theorem action_of_typed_outcome (pc : MemoryReportExtraction.ProcessedCrash)
    (jd : MemoryReportExtraction.JsonDump) (pid : Z) (mr : MemoryReport) :
  MemoryReportExtraction.k_json_dump pc = Some jd →
  MemoryReportExtraction.k_pid jd = Some pid →
  MemoryReportExtraction.k_memory_report pc
  = Some (MemoryReportExtraction.of_memory_report mr) →
  MemoryReportExtraction.action pc
  = match _get_memory_measures mr pid with
    | Ok m =>
        Ok ({| MemoryReportExtraction.k_json_dump :=
                 MemoryReportExtraction.k_json_dump pc;
               MemoryReportExtraction.k_memory_report :=
                 MemoryReportExtraction.k_memory_report pc;
               MemoryReportExtraction.k_memory_measures := Some m |}, [])
    | Raise (ValueError msg) =>
        Ok (pc, [MemoryReportExtraction.log_prefix +:+ msg])
    | Raise (KeyError k) => Raise (KeyError k)
    end
  ∧ ∀ k, _get_memory_measures mr pid ≠ Raise (KeyError k).
Proof.
  intros Hjd Hpid Hmr. split.
  - unfold MemoryReportExtraction.action.
    rewrite Hjd. cbn [MemoryReportExtraction.subscript bind].
    rewrite Hpid. cbn [MemoryReportExtraction.subscript bind].
    rewrite Hmr. cbn [MemoryReportExtraction.subscript bind].
    unfold MemoryReportExtraction._get_memory_measures at 1.
    cbn [MemoryReportExtraction.of_memory_report
         MemoryReportExtraction.k_reports MemoryReportExtraction.subscript
         bind].
    rewrite dict_for_reports_of_report.
    change (let* st := for_reports (pid_marker pid) locals_init (reports mr) in _)
      with (_get_memory_measures mr pid).
    destruct (_get_memory_measures mr pid) as [m|[msg|k]] eqn:Hm;
      [done|done|].
    rewrite get_memory_measures_spec in Hm.
    destruct (first_fatal _ _) as [e|] eqn:Hf.
    + destruct (first_fatal_is_ValueError _ _ _ Hf) as (r & _ & _ & _ & Hr).
      by destruct (fatal_Some_inv _ _ Hr) as [[_ ->]|(_ & _ & _ & ->)].
    + by destruct (existsb _ _).
  - intros k. rewrite get_memory_measures_spec.
    destruct (first_fatal _ _) as [e|] eqn:Hf.
    + destruct (first_fatal_is_ValueError _ _ _ Hf) as (r & _ & _ & _ & Hr).
      by destruct (fatal_Some_inv _ _ Hr) as [[_ ->]|(_ & _ & _ & ->)].
    + by destruct (existsb _ _).
Qed.

Lemma action_of_typed_outcome_witness :
  MemoryReportExtraction.action
    (sample_crash [MemoryReportExtraction.of_report other_pid_record])
  = Ok (sample_crash [MemoryReportExtraction.of_report other_pid_record],
        ["Unable to extract measurements from memory report: no measurements found for pid 7"]).
Proof.
  apply (proj1 (action_of_typed_outcome
                  (sample_crash
                     [MemoryReportExtraction.of_report other_pid_record])
                  (MemoryReportExtraction.mkJsonDump (Some 7)) 7
                  (mkMemoryReport 1 [other_pid_record] true)
                  eq_refl eq_refl eq_refl)).
Defined.

(** ** Further properties of the extraction *)

Lemma fatal_None_passes (ps : string) (r : Report) :
  (if matches_pid ps r then fatal r else None) = None → passes_checks ps r.
Proof.
  intros H Hm He. rewrite Hm in H. unfold fatal in H. rewrite He in H.
  destruct (Z.eqb_spec (units r) UNITS_BYTES) as [Hu|Hu]; [|done].
  split; [done|]. cbn [negb] in H.
  destruct (Z.eqb_spec (kind r) KIND_NONHEAP); [by left|].
  destruct (Z.eqb_spec (kind r) KIND_HEAP); [by right|done].
Qed.

Lemma first_fatal_None_passes (ps : string) (l : list Report) :
  first_fatal ps l = None → Forall (passes_checks ps) l.
Proof.
  induction l as [|r l IH]; [constructor|]. cbn [first_fatal].
  destruct (if matches_pid ps r then fatal r else None) eqn:Hr; [done|].
  intros H. constructor; [by apply fatal_None_passes|auto].
Qed.

Lemma existsb_Exists (p : Report → bool) (l : list Report) :
  existsb p l = true ↔ Exists (λ r, p r = true) l.
Proof.
  induction l as [|r l IH]; cbn [existsb].
  - split; [done|by intros ?%Exists_nil].
  - rewrite orb_true_iff, Exists_cons, IH. done.
Qed.

(** X7: the extraction returns a dictionary exactly when some record
    belongs to the requested process and every record of the process under
    [explicit/] has units BYTES and kind HEAP or NONHEAP. *)
Theorem extraction_succeeds_iff (mr : MemoryReport) (pid : Z) :
  (∃ m, _get_memory_measures mr pid = Ok m)
  ↔ Exists (λ r, Py.str_in (pid_marker pid) (process r) = true) (reports mr)
    ∧ Forall (passes_checks (pid_marker pid)) (reports mr).
Proof.
  rewrite get_memory_measures_spec. split.
  - intros [m Hm].
    destruct (first_fatal _ _) eqn:Hf; [done|].
    destruct (existsb _ _) eqn:He; [|done].
    split; [by apply existsb_Exists in He|by apply first_fatal_None_passes].
  - intros [He Hf]. rewrite first_fatal_passes by done.
    apply existsb_Exists in He. unfold matches_pid. rewrite He. by eexists.
Qed.

(** X8: the outcome is always a dictionary, the [ValueError] for a pid
    without records, or the [ValueError] of a record of the list that
    fails a check: the subscripts of [all_metrics] never raise
    [KeyError]. *)
Theorem extraction_outcomes (mr : MemoryReport) (pid : Z) :
  (∃ m, _get_memory_measures mr pid = Ok m)
  ∨ _get_memory_measures mr pid = Raise (ValueError (no_measurements_msg pid))
  ∨ ∃ r, r ∈ reports mr
         ∧ validation_error_for (pid_marker pid)
             (_get_memory_measures mr pid) r.
Proof.
  destruct (first_fatal (pid_marker pid) (reports mr)) as [e|] eqn:Hf.
  - right. right.
    destruct (first_fatal_is_ValueError _ _ _ Hf) as (r & Hr & Hm & _ & Hfr).
    apply (fatal_record_raises mr pid r Hr Hm). by rewrite Hfr.
  - rewrite get_memory_measures_spec, Hf.
    destruct (existsb _ _); [left; by eexists|by right; left].
Qed.

Lemma sum_amounts_app (l1 l2 : list Report) :
  sum_amounts (l1 ++ l2) = sum_amounts l1 + sum_amounts l2.
Proof.
  unfold sum_amounts. induction l1 as [|r l1 IH]; [done|].
  cbn [app foldr]. rewrite IH. lia.
Qed.

Lemma sum_amounts_filter_app (p : Report → bool) (l1 l2 : list Report) :
  sum_amounts (List.filter p (l1 ++ l2))
  = sum_amounts (List.filter p l1) + sum_amounts (List.filter p l2).
Proof. by rewrite List.filter_app, sum_amounts_app. Qed.

Lemma final_metrics_app (ps k : string) (l1 l2 : list Report) :
  final_metrics ps (l1 ++ l2) k
  = final_metrics ps l1 k + final_metrics ps l2 k.
Proof.
  unfold final_metrics. rewrite !sum_amounts_filter_app.
  destruct (decide (k = "explicit")); [lia|].
  destruct (decide (k = "heap-unclassified")); lia.
Qed.

Lemma out_table_add (f g : string → Z) :
  out_table (λ k, f k + g k)
  = union_with (λ a b, Some (a + b)) (out_table f) (out_table g).
Proof.
  unfold out_table. induction metric_names as [|k ks IH]; cbn [fmap list_fmap].
  - rewrite !list_to_map_nil. symmetry. apply (left_id _ _).
  - rewrite !list_to_map_cons, IH. by apply insert_union_with.
Qed.

(** X9: the values add up over concatenation: when the extraction
    succeeds on two record lists for the same pid, it succeeds on the two
    lists put together, and every key holds the sum of its two values. *)
Theorem extraction_additive (v1 v2 v : Z) (h1 h2 h : bool)
    (l1 l2 : list Report) (pid : Z) (m1 m2 : gmap string Z) :
  _get_memory_measures (mkMemoryReport v1 l1 h1) pid = Ok m1 →
  _get_memory_measures (mkMemoryReport v2 l2 h2) pid = Ok m2 →
  _get_memory_measures (mkMemoryReport v (l1 ++ l2) h) pid
  = Ok (union_with (λ a b, Some (a + b)) m1 m2).
Proof.
  intros H1 H2.
  destruct (success_inv _ _ _ H1) as (Hf1 & He1 & ->).
  destruct (success_inv _ _ _ H2) as (Hf2 & He2 & ->).
  cbn [reports] in *.
  rewrite get_memory_measures_spec. cbn [reports].
  rewrite first_fatal_app, Hf1, Hf2, existsb_app, He1. cbn [orb].
  rewrite <- out_table_add. f_equal. apply out_table_ext.
  intros k _. apply final_metrics_app.
Qed.

Lemma extraction_additive_witness :
  ∃ m,
    _get_memory_measures
      (mkMemoryReport 1
         ([heap_allocated_record; images_record]
          ++ [heap_allocated_record; nonheap_record]) true) 7
    = Ok m
    ∧ m !! "heap_allocated" = Some 1000
    ∧ m !! "explicit" = Some 1040.
Proof.
  eexists. split.
  - apply (extraction_additive 1 1 1 true true true
             [heap_allocated_record; images_record]
             [heap_allocated_record; nonheap_record] 7);
      apply success_intro; vm_compute; reflexivity.
  - rewrite <- out_table_add.
    split; [output_lookup "heap-allocated"|output_lookup "explicit"].
Defined.

Lemma explicit_totals_sum (ps : string) (l : list Report) :
  first_fatal ps l = None →
  sum_amounts (List.filter (explicit_of_kind ps KIND_NONHEAP) l)
  + sum_amounts (List.filter (explicit_of_kind ps KIND_HEAP) l)
  = sum_amounts (List.filter (λ r, matches_pid ps r && is_explicit r) l).
Proof.
  induction l as [|r l IH]; [done|]. cbn [first_fatal].
  destruct (if matches_pid ps r then fatal r else None) eqn:Hr; [done|].
  intros Hl. rewrite !sum_amounts_filter_cons, <- (IH Hl).
  pose proof (fatal_None_passes ps r Hr) as Hp.
  unfold passes_checks in Hp. unfold explicit_of_kind.
  destruct (matches_pid ps r); [|cbn [andb]; lia].
  destruct (is_explicit r); [|cbn [andb]; lia].
  destruct (Hp eq_refl eq_refl) as [_ [->| ->]]; cbn; lia.
Qed.

(** X10: in every returned dictionary, [explicit] minus
    [heap_unclassified] is the total of the amounts of all the records of
    the process under [explicit/], heap and non-heap together. *)
Theorem explicit_minus_heap_unclassified (mr : MemoryReport) (pid : Z)
    (m : gmap string Z) :
  _get_memory_measures mr pid = Ok m →
  ∃ e hu,
    m !! "explicit" = Some e
    ∧ m !! "heap_unclassified" = Some hu
    ∧ e - hu
      = sum_amounts
          (List.filter
             (λ r, matches_pid (pid_marker pid) r && is_explicit r)
             (reports mr)).
Proof.
  intros Hm. destruct (success_inv _ _ _ Hm) as (Hf & _ & ->).
  eexists _, _. split; [|split].
  - apply (lookup_out_table (final_metrics _ _) "explicit").
    apply metric_name_elem. vm_compute. reflexivity.
  - apply (lookup_out_table (final_metrics _ _) "heap-unclassified").
    apply metric_name_elem. vm_compute. reflexivity.
  - rewrite <- (explicit_totals_sum _ _ Hf). unfold final_metrics.
    rewrite decide_True by done. rewrite decide_False by done.
    rewrite decide_True by done. lia.
Qed.

Lemma explicit_minus_heap_unclassified_witness :
  ∃ e hu,
    out_table
      (final_metrics (pid_marker 7)
         [heap_allocated_record; images_record; nonheap_record])
    !! "explicit" = Some e
    ∧ out_table
        (final_metrics (pid_marker 7)
           [heap_allocated_record; images_record; nonheap_record])
      !! "heap_unclassified" = Some hu
    ∧ e - hu = 740.
Proof.
  apply (explicit_minus_heap_unclassified
           (mkMemoryReport 1
              [heap_allocated_record; images_record; nonheap_record] true) 7).
  apply success_intro; vm_compute; reflexivity.
Defined.

(** X11: a record of the requested process whose path is neither under
    [explicit/] nor under [js-main-runtime/] nor a measured name adds to
    no key, whatever its kind, units and amount; yet it counts as a
    record of the process: alone in a report it gives the dictionary of
    zeros, not the error for a pid without records. *)
Theorem unknown_path_ignored (pid : Z) (r : Report) :
  matches_pid (pid_marker pid) r = true →
  is_explicit r = false →
  measured_bucket (path r) = None →
  (∀ v h pre post m,
     _get_memory_measures (mkMemoryReport v (pre ++ post) h) pid = Ok m →
     _get_memory_measures (mkMemoryReport v (pre ++ r :: post) h) pid = Ok m)
  ∧ ∀ v h,
      _get_memory_measures (mkMemoryReport v [r] h) pid
      = Ok (out_table (λ _, 0)).
Proof.
  intros Hm He Hb.
  assert (Hf : fatal r = None) by (unfold fatal; by rewrite He).
  assert (Hk : ∀ l k, final_metrics (pid_marker pid) (r :: l) k
                      = final_metrics (pid_marker pid) l k).
  { intros l k. unfold final_metrics. rewrite !sum_amounts_filter_cons.
    rewrite !feeds_match, !explicit_of_kind_match by done.
    rewrite bucket_not_explicit, Hb, He by done. cbn [andb].
    rewrite !bool_decide_eq_false_2 by done. done. }
  split.
  - intros v h pre post m Hpp.
    destruct (success_inv _ _ _ Hpp) as (Hfp & Hep & ->). cbn [reports] in *.
    rewrite get_memory_measures_spec. cbn [reports].
    rewrite first_fatal_app in Hfp |- *.
    destruct (first_fatal _ pre); [done|].
    cbn [first_fatal]. rewrite Hm, Hf, Hfp.
    rewrite existsb_app in Hep |- *. cbn [existsb]. rewrite Hm.
    rewrite orb_true_r. f_equal. apply out_table_ext. intros k _.
    rewrite !final_metrics_app.
    replace (r :: post) with ([r] ++ post) by done.
    rewrite (final_metrics_app _ _ [r] post), Hk.
    unfold final_metrics at 2. cbn.
    destruct (decide (k = "explicit")); [lia|].
    destruct (decide (k = "heap-unclassified")); lia.
  - intros v h. rewrite get_memory_measures_spec.
    cbn [reports first_fatal existsb]. rewrite Hm, Hf. cbn [orb].
    f_equal. apply out_table_ext. intros k _. rewrite Hk.
    unfold final_metrics. cbn.
    destruct (decide (k = "explicit")); [done|].
    by destruct (decide (k = "heap-unclassified")).
Qed.

Lemma unknown_path_ignored_witness :
  _get_memory_measures (mkMemoryReport 1 [unknown_path_record] true) 7
  = Ok (out_table (λ _, 0)).
Proof.
  apply (proj2 (unknown_path_ignored 7 unknown_path_record
                  ltac:(vm_compute; reflexivity) eq_refl eq_refl)).
Defined.

(** * Distinguished names: properties *)

Lemma string_app_nil_r (s : string) : s +:+ "" = s.
Proof.
  induction s as [|c s IH]; [done|].
  change (String c s +:+ "") with (String c (s +:+ "")). by rewrite IH.
Qed.

Lemma string_app_assoc (a b c : string) : (a +:+ b) +:+ c = a +:+ b +:+ c.
Proof.
  induction a as [|x a IH]; [done|].
  change (String x (a +:+ b) +:+ c = String x (a +:+ b +:+ c)).
  change (String x ((a +:+ b) +:+ c) = String x (a +:+ b +:+ c)).
  by rewrite IH.
Qed.

Lemma string_app_cons (x : ascii) (a b : string) :
  String x a +:+ b = String x (a +:+ b).
Proof. reflexivity. Qed.

Lemma dn_replace_app (a b : string) (old : ascii) (new : string) :
  LdapDn.replace (a +:+ b) old new
  = LdapDn.replace a old new +:+ LdapDn.replace b old new.
Proof.
  induction a as [|x a IH]; [done|].
  rewrite string_app_cons. cbn [LdapDn.replace]. rewrite IH.
  destruct (Ascii.eqb x old); [by rewrite string_app_assoc|done].
Qed.

Lemma nine_replacements_app (a b : string) :
  nine_replacements (a +:+ b) = nine_replacements a +:+ nine_replacements b.
Proof. unfold nine_replacements. cbv zeta. by rewrite !dn_replace_app. Qed.

Lemma nine_replacements_char (c : ascii) :
  nine_replacements (String c "") = dn_escape_char c.
Proof.
  destruct c as [[] [] [] [] [] [] [] []]; vm_compute; reflexivity.
Qed.

Lemma nine_replacements_all (s : string) :
  nine_replacements s = dn_escape_all s.
Proof.
  induction s as [|c s IH]; [done|].
  change (String c s) with (String c "" +:+ s).
  rewrite nine_replacements_app, nine_replacements_char, IH. done.
Qed.

Lemma dn_last_spec (c : ascii) (s : string) :
  ∃ x, LdapDn.last (String c s) = LdapDn.Return x
       ∧ Ascii.eqb x " " = ends_with_space (String c s).
Proof.
  revert c. induction s as [|d s IH]; intros c; [by eexists|].
  destruct (IH d) as (x & Hx & Hs). exists x. split; [exact Hx|exact Hs].
Qed.

Lemma dn_escape_all_cons (c : ascii) (s : string) :
  ∃ d r, dn_escape_all (String c s) = String d r
         ∧ (Ascii.eqb d "#" || Ascii.eqb d " "
            = starts_with_hash_or_space (String c s)).
Proof.
  cbn [dn_escape_all starts_with_hash_or_space]. unfold dn_escape_char.
  destruct (dn_special c) eqn:Hc.
  - eexists _, _. split; [reflexivity|].
    destruct (Ascii.eqb_spec c "#") as [->|]; [done|].
    by destruct (Ascii.eqb_spec c " ") as [->|].
  - by eexists _, _.
Qed.

Lemma escape_dn_chars_value (s : string) :
  LdapDn.escape_dn_chars s = LdapDn.Return (dn_escaped s).
Proof.
  unfold LdapDn.escape_dn_chars, dn_escaped.
  destruct s as [|c s]; [reflexivity|]. cbn [String.eqb negb].
  change (LdapDn.replace _ LdapDn.nul _)
    with (nine_replacements (String c s)).
  cbv zeta. rewrite nine_replacements_all.
  destruct (dn_escape_all_cons c s) as (d & r & -> & _).
  cbn [LdapDn.first LdapDn.dn_bind starts_with_hash_or_space].
  change (LdapDn.join "" ["\"; String d r])
    with (String LdapDn.backslash (String d r)).
  destruct (Ascii.eqb d "#"), (Ascii.eqb d " ");
    cbn [LdapDn.first LdapDn.dn_bind orb].
  1-3: destruct (dn_last_spec LdapDn.backslash (String d r)) as (x & -> & <-);
    cbn [LdapDn.dn_bind]; destruct (Ascii.eqb x " "); reflexivity.
  destruct (dn_last_spec d r) as (x & -> & <-).
  cbn [LdapDn.dn_bind]. destruct (Ascii.eqb x " "); reflexivity.
Qed.

Lemma ends_with_space_app (x r : string) :
  r ≠ "" → ends_with_space (x +:+ r) = ends_with_space r.
Proof.
  intros Hr. induction x as [|c x IH]; [done|].
  rewrite string_app_cons. cbn [ends_with_space].
  destruct (x +:+ r) eqn:Hx; [|exact IH].
  destruct x; [by destruct r|done].
Qed.

Lemma but_last_app (x r : string) :
  r ≠ "" → LdapDn.but_last (x +:+ r) = x +:+ LdapDn.but_last r.
Proof.
  intros Hr. induction x as [|c x IH]; [done|].
  rewrite !string_app_cons. cbn [LdapDn.but_last].
  destruct (x +:+ r) eqn:Hx; [|by rewrite IH].
  destruct x; [by destruct r|done].
Qed.

Lemma dn_finish_app (x r : string) :
  r ≠ "" → dn_finish (x +:+ r) = x +:+ dn_finish r.
Proof.
  intros Hr. unfold dn_finish.
  rewrite ends_with_space_app, but_last_app by done.
  destruct (ends_with_space r); [by rewrite string_app_assoc|done].
Qed.

Lemma dn_special_space : ∀ c, dn_special c = true → Ascii.eqb c " " = false.
Proof. intros c. destruct (Ascii.eqb_spec c " ") as [->|]; done. Qed.

Lemma dn_special_hash : ∀ c, dn_special c = true → Ascii.eqb c "#" = false.
Proof. intros c. destruct (Ascii.eqb_spec c "#") as [->|]; done. Qed.

Lemma dn_special_backslash (c : ascii) :
  dn_special c = false → Ascii.eqb c LdapDn.backslash = false.
Proof. unfold dn_special. by destruct (Ascii.eqb c LdapDn.backslash). Qed.

Lemma dn_escape_all_nonempty (c : ascii) (s : string) :
  dn_escape_all (String c s) ≠ "".
Proof.
  cbn [dn_escape_all]. unfold dn_escape_char. by destruct (dn_special c).
Qed.

Lemma dn_finish_escape_all (s : string) :
  dn_finish (dn_escape_all s) = dn_escape_body s.
Proof.
  induction s as [|c s IH]; [done|].
  destruct s as [|d s].
  - cbn [dn_escape_all dn_escape_body]. rewrite string_app_nil_r.
    unfold dn_escape_char, dn_finish.
    destruct (dn_special c) eqn:Hc.
    + cbn [ends_with_space]. by rewrite (dn_special_space c Hc).
    + cbn [ends_with_space LdapDn.but_last]. by destruct (Ascii.eqb c " ").
  - change (dn_escape_all (String c (String d s)))
      with (dn_escape_char c +:+ dn_escape_all (String d s)).
    change (dn_escape_body (String c (String d s)))
      with (dn_escape_char c +:+ dn_escape_body (String d s)).
    rewrite dn_finish_app by apply dn_escape_all_nonempty. by rewrite IH.
Qed.

Lemma dn_escaped_body (s : string) :
  dn_escaped s
  = (if starts_with_hash_or_space s then "\" else "") +:+ dn_escape_body s.
Proof.
  unfold dn_escaped. destruct s as [|c s]; [done|]. cbn [String.eqb].
  cbv zeta. fold (dn_finish
    (if starts_with_hash_or_space (dn_escape_all (String c s))
     then String LdapDn.backslash (dn_escape_all (String c s))
     else dn_escape_all (String c s))).
  destruct (dn_escape_all_cons c s) as (d & r & Hr & Hd).
  rewrite Hr at 1. cbn [starts_with_hash_or_space] in *. rewrite Hd.
  destruct (Ascii.eqb c "#" || Ascii.eqb c " ").
  - change (String LdapDn.backslash (dn_escape_all (String c s)))
      with ("\" +:+ dn_escape_all (String c s)).
    rewrite dn_finish_app by apply dn_escape_all_nonempty.
    by rewrite dn_finish_escape_all.
  - by rewrite dn_finish_escape_all.
Qed.

Lemma string_length_app (a b : string) :
  String.length (a +:+ b) = (String.length a + String.length b)%nat.
Proof.
  induction a as [|c a IH]; [done|].
  rewrite string_app_cons. cbn [String.length]. by rewrite IH.
Qed.

Lemma dn_escape_char_length (c : ascii) :
  String.length (dn_escape_char c)
  = (1 + (if dn_special c then 1 else 0))%nat.
Proof. unfold dn_escape_char. by destruct (dn_special c). Qed.

Lemma dn_escape_body_length (s : string) :
  String.length (dn_escape_body s)
  = (String.length s + count_special s
     + (if ends_with_space s then 1 else 0))%nat.
Proof.
  induction s as [|c s IH]; [done|].
  destruct s as [|d s].
  - cbn [dn_escape_body count_special ends_with_space String.length].
    destruct (Ascii.eqb c " ") eqn:Hc.
    + destruct (dn_special c) eqn:Hs; [|done].
      by rewrite (dn_special_space c Hs) in Hc.
    + rewrite dn_escape_char_length. lia.
  - change (dn_escape_body (String c (String d s)))
      with (dn_escape_char c +:+ dn_escape_body (String d s)).
    rewrite string_length_app, IH, dn_escape_char_length.
    cbn [count_special ends_with_space String.length]. lia.
Qed.

Lemma dn_escaped_length (s : string) :
  String.length (dn_escaped s)
  = (String.length s + count_special s
     + (if starts_with_hash_or_space s then 1 else 0)
     + (if ends_with_space s then 1 else 0))%nat.
Proof.
  rewrite dn_escaped_body, string_length_app, dn_escape_body_length.
  destruct (starts_with_hash_or_space s); cbn [String.length]; lia.
Qed.

(** X13: [escape_dn_chars] never raises (its two subscripts are in range),
    and the value it returns has the length of [s] plus one for every
    special character of [s], plus one when [s] starts with [#] or a
    space, plus one when [s] ends with a space. *)
Theorem escape_dn_chars_length (s : string) :
  ∃ r, LdapDn.escape_dn_chars s = LdapDn.Return r
       ∧ String.length r
         = (String.length s + count_special s
            + (if starts_with_hash_or_space s then 1 else 0)
            + (if ends_with_space s then 1 else 0))%nat.
Proof.
  exists (dn_escaped s). split; [apply escape_dn_chars_value|].
  apply dn_escaped_length.
Qed.

Lemma dn_escape_body_safe (s : string) :
  count_special s = 0%nat → ends_with_space s = false →
  dn_escape_body s = s.
Proof.
  induction s as [|c s IH]; [done|]. cbn [count_special].
  destruct (dn_special c) eqn:Hc; [done|]. intros Hs He.
  destruct s as [|d s].
  - cbn [dn_escape_body ends_with_space] in *. rewrite He.
    unfold dn_escape_char. by rewrite Hc.
  - change (dn_escape_body (String c (String d s)))
      with (dn_escape_char c +:+ dn_escape_body (String d s)).
    rewrite IH by done. unfold dn_escape_char. by rewrite Hc.
Qed.

(** X14: [escape_dn_chars] returns its argument unchanged exactly when the
    argument has no special character, does not start with [#] or a
    space and does not end with a space. *)
Theorem escape_dn_chars_identity (s : string) :
  LdapDn.escape_dn_chars s = LdapDn.Return s
  ↔ count_special s = 0%nat
    ∧ starts_with_hash_or_space s = false
    ∧ ends_with_space s = false.
Proof.
  split.
  - rewrite escape_dn_chars_value. intros [= Hs].
    pose proof (dn_escaped_length s) as Hlen. rewrite Hs in Hlen.
    destruct (starts_with_hash_or_space s), (ends_with_space s);
      repeat split; try done; lia.
  - intros (Hc & Hl & Ht). rewrite escape_dn_chars_value, dn_escaped_body.
    rewrite Hl, dn_escape_body_safe by done. done.
Qed.

Lemma dn_unescape_char (c : ascii) (x : string) :
  dn_unescape (dn_escape_char c +:+ x) = String c (dn_unescape x).
Proof.
  unfold dn_escape_char. destruct (dn_special c) eqn:Hc.
  - rewrite !string_app_cons. cbn [dn_unescape]. by rewrite Ascii.eqb_refl.
  - rewrite string_app_cons. cbn [dn_unescape].
    by rewrite (dn_special_backslash c Hc).
Qed.

Lemma dn_unescape_body (s : string) : dn_unescape (dn_escape_body s) = s.
Proof.
  induction s as [|c s IH]; [done|].
  destruct s as [|d s].
  - cbn [dn_escape_body].
    destruct (Ascii.eqb_spec c " ") as [->|]; [done|].
    rewrite <- (string_app_nil_r (dn_escape_char c)).
    by rewrite dn_unescape_char.
  - change (dn_escape_body (String c (String d s)))
      with (dn_escape_char c +:+ dn_escape_body (String d s)).
    by rewrite dn_unescape_char, IH.
Qed.

Lemma dn_escape_body_nonempty (c : ascii) (s : string) :
  dn_escape_body (String c s) ≠ "".
Proof.
  destruct s as [|d s].
  - cbn [dn_escape_body]. destruct (Ascii.eqb c " "); [done|].
    unfold dn_escape_char. by destruct (dn_special c).
  - change (dn_escape_body (String c (String d s)))
      with (dn_escape_char c +:+ dn_escape_body (String d s)).
    unfold dn_escape_char. by destruct (dn_special c).
Qed.

Lemma dn_no_bare_special_char (c : ascii) (x : string) :
  x ≠ "" →
  dn_no_bare_special (dn_escape_char c +:+ x) = dn_no_bare_special x.
Proof.
  intros Hx. unfold dn_escape_char. destruct (dn_special c) eqn:Hc.
  - rewrite !string_app_cons. cbn [dn_no_bare_special].
    by rewrite Ascii.eqb_refl.
  - rewrite string_app_cons. cbn [dn_no_bare_special].
    rewrite (dn_special_backslash c Hc), Hc.
    destruct x; [done|]. cbn [String.eqb append].
    by rewrite andb_false_r.
Qed.

Lemma dn_no_bare_special_body (s : string) :
  dn_no_bare_special (dn_escape_body s) = true.
Proof.
  induction s as [|c s IH]; [done|].
  destruct s as [|d s].
  - cbn [dn_escape_body].
    destruct (Ascii.eqb c " ") eqn:Hsp; [done|].
    unfold dn_escape_char. destruct (dn_special c) eqn:Hc.
    + cbn [dn_no_bare_special]. by rewrite Ascii.eqb_refl.
    + cbn [dn_no_bare_special].
      by rewrite (dn_special_backslash c Hc), Hc, Hsp.
  - change (dn_escape_body (String c (String d s)))
      with (dn_escape_char c +:+ dn_escape_body (String d s)).
    rewrite dn_no_bare_special_char by apply dn_escape_body_nonempty.
    exact IH.
Qed.

Lemma dn_escaped_round_trip (s : string) :
  s ≠ " " →
  dn_unescape (dn_escaped s) = s
  ∧ dn_no_bare_special (dn_escaped s) = true
  ∧ starts_with_hash_or_space (dn_escaped s) = false.
Proof.
  intros Hs. rewrite dn_escaped_body.
  destruct s as [|c s]; [done|].
  destruct (starts_with_hash_or_space (String c s)) eqn:Hl.
  - cbn [starts_with_hash_or_space] in Hl.
    assert (Hc : dn_special c = false).
    { destruct (dn_special c) eqn:Hc; [|done].
      by rewrite (dn_special_hash c Hc), (dn_special_space c Hc) in Hl. }
    assert (Hb : dn_escape_body (String c s)
                 = String c (dn_escape_body s) ∧ (s = "" → c ≠ " "%char)).
    { destruct s as [|d s].
      - cbn [dn_escape_body]. destruct (Ascii.eqb_spec c " ") as [->|Hne];
          [done|]. unfold dn_escape_char. by rewrite Hc.
      - split; [|done].
        change (dn_escape_body (String c (String d s)))
          with (dn_escape_char c +:+ dn_escape_body (String d s)).
        unfold dn_escape_char. by rewrite Hc. }
    destruct Hb as [-> _].
    change ("\" +:+ String c (dn_escape_body s))
      with (String LdapDn.backslash (String c (dn_escape_body s))).
    cbn [dn_unescape dn_no_bare_special starts_with_hash_or_space].
    rewrite Ascii.eqb_refl, dn_unescape_body, dn_no_bare_special_body.
    done.
  - change ("" +:+ dn_escape_body (String c s))
      with (dn_escape_body (String c s)).
    rewrite dn_unescape_body, dn_no_bare_special_body.
    repeat split. cbn [starts_with_hash_or_space] in Hl.
    destruct s as [|d s].
    + cbn [dn_escape_body]. apply orb_false_elim in Hl as [Hh Hsp].
      rewrite Hsp. unfold dn_escape_char.
      destruct (dn_special c); cbn [starts_with_hash_or_space];
        [done|by rewrite Hh, Hsp].
    + change (dn_escape_body (String c (String d s)))
        with (dn_escape_char c +:+ dn_escape_body (String d s)).
      unfold dn_escape_char.
      destruct (dn_special c); rewrite !string_app_cons;
        cbn [starts_with_hash_or_space]; done.
Qed.


(** X15: for every string but the one made of a single space, the value
    [escape_dn_chars] returns reads back as the string, leaves no special
    character and no final space bare, and does not start with a bare
    [#] or space. *)
Theorem escape_dn_chars_round_trip (s : string) :
  s ≠ " " →
  ∃ r, LdapDn.escape_dn_chars s = LdapDn.Return r
       ∧ dn_unescape r = s
       ∧ dn_no_bare_special r = true
       ∧ starts_with_hash_or_space r = false.
Proof.
  intros Hs. exists (dn_escaped s). split; [apply escape_dn_chars_value|].
  by apply dn_escaped_round_trip.
Qed.

Lemma escape_dn_chars_round_trip_witness :
  LdapDn.escape_dn_chars " a=b,c " = LdapDn.Return "\ a\=b\,c\ "
  ∧ dn_unescape "\ a\=b\,c\ " = " a=b,c ".
Proof.
  destruct (escape_dn_chars_round_trip " a=b,c " ltac:(done))
    as (r & Hr & Hu & _).
  assert (Hv : LdapDn.escape_dn_chars " a=b,c "
               = LdapDn.Return "\ a\=b\,c\ ") by reflexivity.
  rewrite Hv in Hr. injection Hr as <-. by split.
Defined.

(** X16: [escape_dn_chars] is injective: two strings with the same escaped
    value are the same string. *)
Theorem escape_dn_chars_injective (s1 s2 r : string) :
  LdapDn.escape_dn_chars s1 = LdapDn.Return r →
  LdapDn.escape_dn_chars s2 = LdapDn.Return r →
  s1 = s2.
Proof.
  rewrite !escape_dn_chars_value.
  assert (Hone : ∀ s, dn_escaped s = "\\ " → s = " ").
  { intros s Hs. destruct (decide (s = " ")) as [|Hne]; [done|].
    destruct (dn_escaped_round_trip s Hne) as (Hu & _).
    rewrite Hs in Hu. cbn in Hu. subst s. vm_compute in Hs.
    discriminate Hs. }
  intros [= H1] [= H2].
  destruct (decide (s1 = " ")) as [->|Hn1].
  - vm_compute in H1. subst r. symmetry. by apply Hone.
  - destruct (decide (s2 = " ")) as [->|Hn2].
    + vm_compute in H2. subst r. by apply Hone.
    + destruct (dn_escaped_round_trip s1 Hn1) as (Hu1 & _).
      destruct (dn_escaped_round_trip s2 Hn2) as (Hu2 & _).
      congruence.
Qed.

Lemma escape_dn_chars_injective_witness :
  LdapDn.escape_dn_chars "a+b" = LdapDn.Return "a\+b"
  ∧ ∀ s, LdapDn.escape_dn_chars s = LdapDn.Return "a\+b" → "a+b" = s.
Proof.
  split; [reflexivity|].
  intros s Hs. by apply (escape_dn_chars_injective "a+b" s "a\+b").
Defined.

(** The single space is the exception of X15: the backslash put before it
    as a leading space ends up escaped by the one put before it as a
    final space, and the space itself stays bare. *)
Example escape_dn_chars_single_space :
  LdapDn.escape_dn_chars " " = LdapDn.Return "\\ "
  ∧ dn_unescape "\\ " = "\ "
  ∧ dn_no_bare_special "\\ " = false.
Proof. by repeat split. Qed.

(** ** [dn2str], [explode_dn] and [explode_rdn] *)

Lemma comprehension_pure {A B : Type} (f : A → LdapDn.dn_result B)
    (g : A → B) (l : list A) :
  (∀ x, f x = LdapDn.Return (g x)) →
  LdapDn.comprehension f l = LdapDn.Return (g <$> l).
Proof.
  intros Hf. induction l as [|x l IH]; [done|].
  cbn [LdapDn.comprehension fmap list_fmap]. rewrite Hf, IH. done.
Qed.

Lemma dn2str_value (dn : list (list LdapDn.ava)) :
  LdapDn.dn2str dn = LdapDn.Return (LdapDn.join "," (rdn_text <$> dn)).
Proof.
  unfold LdapDn.dn2str.
  rewrite (comprehension_pure _ rdn_text); [done|].
  intros rdn. rewrite (comprehension_pure _ ava_text); [done|].
  intros [[atype avalue] dummy]. by rewrite escape_dn_chars_value.
Qed.

Lemma join_app (sep : string) (l1 l2 : list string) :
  l1 ≠ [] → l2 ≠ [] →
  LdapDn.join sep (l1 ++ l2)
  = LdapDn.join sep l1 +:+ sep +:+ LdapDn.join sep l2.
Proof.
  intros H1 H2. induction l1 as [|x l1 IH]; [done|].
  destruct l1 as [|y l1].
  - destruct l2; done.
  - change (LdapDn.join sep ((x :: y :: l1) ++ l2))
      with (x +:+ sep +:+ LdapDn.join sep ((y :: l1) ++ l2)).
    rewrite IH by done.
    change (LdapDn.join sep (x :: y :: l1))
      with (x +:+ sep +:+ LdapDn.join sep (y :: l1)).
    by rewrite !string_app_assoc.
Qed.

(** X17: on two decomposed DNs that are not empty [dn2str] does not raise,
    and the string of the two put together is the two strings with a comma
    between them. *)
Theorem dn2str_app (d1 d2 : list (list LdapDn.ava)) :
  d1 ≠ [] → d2 ≠ [] →
  ∃ r1 r2,
    LdapDn.dn2str d1 = LdapDn.Return r1
    ∧ LdapDn.dn2str d2 = LdapDn.Return r2
    ∧ LdapDn.dn2str (d1 ++ d2) = LdapDn.Return (r1 +:+ "," +:+ r2).
Proof.
  intros H1 H2. eexists _, _. rewrite !dn2str_value.
  split; [done|]. split; [done|].
  rewrite fmap_app, join_app; [done|by destruct d1|by destruct d2].
Qed.

Lemma dn2str_app_witness :
  LdapDn.dn2str
    ([[("cn", Some "Doe, John", 1)]]
     ++ [[("ou", Some "#1", 1); ("o", None, 1)]; [("dc", Some "org", 1)]])
  = LdapDn.Return "cn=Doe\, John,ou=\#1+o=,dc=org".
Proof.
  destruct (dn2str_app
              [[("cn", Some "Doe, John", 1)]]
              [[("ou", Some "#1", 1); ("o", None, 1)]; [("dc", Some "org", 1)]]
              ltac:(done) ltac:(done))
    as (r1 & r2 & H1 & H2 & H3).
  vm_compute in H1, H2. injection H1 as <-. injection H2 as <-.
  exact H3.
Defined.

Lemma explode_dn_value (lib : string → Z → LdapDn.dn_result
                                 (list (list LdapDn.ava)))
    (dn : string) (notypes flags : Z) (d : list (list LdapDn.ava)) :
  dn ≠ "" →
  lib dn flags = LdapDn.Return d →
  LdapDn.explode_dn lib dn notypes flags
  = LdapDn.Return
      ((λ rdn,
          if negb (notypes =? 0) then
            LdapDn.join "+"
              ((λ a : LdapDn.ava, dn_escaped (LdapDn.or_empty a.1.2))
                 <$> rdn)
          else rdn_text rdn) <$> d).
Proof.
  intros Hdn Hd. unfold LdapDn.explode_dn, LdapDn.str2dn.
  destruct (String.eqb_spec dn ""); [done|]. rewrite Hd.
  cbn [LdapDn.dn_bind]. apply comprehension_pure. intros rdn.
  destruct (negb (notypes =? 0)).
  - rewrite (comprehension_pure _
               (λ a : LdapDn.ava, dn_escaped (LdapDn.or_empty a.1.2)));
      [done|].
    intros [[atype avalue] dummy]. apply escape_dn_chars_value.
  - rewrite (comprehension_pure _ ava_text); [done|].
    intros [[atype avalue] dummy]. by rewrite escape_dn_chars_value.
Qed.

(** X18: for a string the library decomposes, the parts [explode_dn]
    returns (with the types) are as many as the RDNs, and joined with
    commas they are the string [dn2str] makes of the decomposition. *)
Theorem explode_dn_dn2str
    (lib : string → Z → LdapDn.dn_result (list (list LdapDn.ava)))
    (dn : string) (flags : Z) (d : list (list LdapDn.ava)) :
  dn ≠ "" →
  lib dn flags = LdapDn.Return d →
  ∃ parts,
    LdapDn.explode_dn lib dn 0 flags = LdapDn.Return parts
    ∧ List.length parts = List.length d
    ∧ LdapDn.dn2str d = LdapDn.Return (LdapDn.join "," parts).
Proof.
  intros Hdn Hd. eexists. split; [by apply explode_dn_value|].
  cbn [Z.eqb negb]. split; [by rewrite length_fmap|].
  apply dn2str_value.
Qed.

Lemma explode_dn_dn2str_witness :
  ∃ parts,
    LdapDn.explode_dn
      (sample_str2dn "cn=a+sn=b,dc=org"
         [[("cn", Some "a", 1); ("sn", Some "b", 1)]; [("dc", Some "org", 1)]])
      "cn=a+sn=b,dc=org" 0 0
    = LdapDn.Return parts
    ∧ List.length parts = 2%nat
    ∧ LdapDn.dn2str
        [[("cn", Some "a", 1); ("sn", Some "b", 1)]; [("dc", Some "org", 1)]]
      = LdapDn.Return (LdapDn.join "," parts).
Proof.
  apply (explode_dn_dn2str
           (sample_str2dn "cn=a+sn=b,dc=org"
              [[("cn", Some "a", 1); ("sn", Some "b", 1)];
               [("dc", Some "org", 1)]])
           "cn=a+sn=b,dc=org" 0
           [[("cn", Some "a", 1); ("sn", Some "b", 1)];
            [("dc", Some "org", 1)]]);
    [done|reflexivity].
Defined.

(** X19: for a string the library decomposes into one RDN, [explode_dn]
    returns the one string made of the parts of [explode_rdn] joined by
    [+]: the parts as they are with the types, but each part escaped
    again without them, since [explode_rdn] returns bare values there and
    [explode_dn] escaped ones. *)
Theorem explode_dn_of_explode_rdn
    (lib : string → Z → LdapDn.dn_result (list (list LdapDn.ava)))
    (s : string) (notypes flags : Z) (rdn : list LdapDn.ava) :
  s ≠ "" →
  lib s flags = LdapDn.Return [rdn] →
  ∃ parts,
    LdapDn.explode_rdn lib s notypes flags = LdapDn.Return parts
    ∧ List.length parts = List.length rdn
    ∧ LdapDn.explode_dn lib s notypes flags
      = LdapDn.Return
          [LdapDn.join "+"
             (if negb (notypes =? 0) then dn_escaped <$> parts else parts)].
Proof.
  intros Hs Hd.
  rewrite (explode_dn_value lib s notypes flags [rdn] Hs Hd).
  unfold LdapDn.explode_rdn, LdapDn.str2dn.
  destruct (String.eqb_spec s ""); [done|]. rewrite Hd.
  cbn [LdapDn.dn_bind fmap list_fmap].
  destruct (negb (notypes =? 0)).
  - exists ((λ a : LdapDn.ava, LdapDn.or_empty a.1.2) <$> rdn).
    split; [apply comprehension_pure; by intros [[??]?]|].
    split; [by rewrite length_fmap|].
    by rewrite <- list_fmap_compose.
  - exists (ava_text <$> rdn).
    split; [apply comprehension_pure; intros [[??]?];
            by rewrite escape_dn_chars_value|].
    split; [by rewrite length_fmap|done].
Qed.

Lemma explode_dn_of_explode_rdn_witness :
  LdapDn.explode_rdn
    (sample_str2dn "cn=a\,b+sn=c"
       [[("cn", Some "a,b", 1); ("sn", Some "c", 1)]])
    "cn=a\,b+sn=c" 1 0
  = LdapDn.Return ["a,b"; "c"]
  ∧ LdapDn.explode_dn
      (sample_str2dn "cn=a\,b+sn=c"
         [[("cn", Some "a,b", 1); ("sn", Some "c", 1)]])
      "cn=a\,b+sn=c" 1 0
    = LdapDn.Return ["a\,b+c"].
Proof.
  destruct (explode_dn_of_explode_rdn
              (sample_str2dn "cn=a\,b+sn=c"
                 [[("cn", Some "a,b", 1); ("sn", Some "c", 1)]])
              "cn=a\,b+sn=c" 1 0
              [("cn", Some "a,b", 1); ("sn", Some "c", 1)]
              ltac:(done) eq_refl)
    as (parts & Hp & _ & Hd).
  vm_compute in Hp. injection Hp as <-. split; [reflexivity|exact Hd].
Defined.

(** * ISO 8601 time zone designators: properties *)

(** X20: [parse_tzinfo] never raises: the regular expression also matches
    the empty prefix, so the [ISO8601Error] of the last line is out of
    reach.  A string that starts with no designator gives [None], and
    only such a string does. *)
Theorem parse_tzinfo_never_raises (s : string) :
  (∃ r, IsoTzinfo.parse_tzinfo s = IsoTzinfo.Return r)
  ∧ (IsoTzinfo.parse_tzinfo s = IsoTzinfo.Return None
     ↔ has_designator s = false).
Proof.
  unfold IsoTzinfo.parse_tzinfo, has_designator, IsoTzinfo.TZ_RE_match.
  cbv zeta.
  destruct s as [|c after]; [split; [by eexists|done]|].
  destruct (Ascii.eqb c "Z"); [split; [by eexists|done]|]. cbn [orb].
  destruct after as [|h1 [|h2 rest]]; try (split; [by eexists|done]).
  destruct (IsoTzinfo.is_sign c && IsoTzinfo.is_digit h1
            && IsoTzinfo.is_digit h2) eqn:Hd;
    [|split; [by eexists|done]].
  assert (Hshort :
    IsoTzinfo.build_tzinfo (Some (String c (String h1 (String h2 ""))))
      (Some (String c ""))
      (IsoTzinfo.int_or_0 (Some (String h1 (String h2 ""))))
      (IsoTzinfo.int_or_0 None) ≠ None).
  { unfold IsoTzinfo.build_tzinfo. cbn [String.eqb].
    by destruct (Ascii.eqb c "Z"). }
  destruct rest as [|colon [|m1 [|m2 r]]];
    try (split; [by eexists|];
         cbn [IsoTzinfo.tzname IsoTzinfo.tzsign IsoTzinfo.tzhour
              IsoTzinfo.tzmin];
         split; [by intros [= ?]|done]).
  destruct (Ascii.eqb colon ":" && IsoTzinfo.is_digit m1
            && IsoTzinfo.is_digit m2);
    (split; [by eexists|]);
    cbn [IsoTzinfo.tzname IsoTzinfo.tzsign IsoTzinfo.tzhour IsoTzinfo.tzmin];
    (split; [|done]); [|by intros [= ?]].
  unfold IsoTzinfo.build_tzinfo. cbn [String.eqb].
  by destruct (Ascii.eqb c "Z").
Qed.

Lemma fmt02_first_hundred :
  forallb fmt02_two_digits (Z.of_nat <$> seq 0 100) = true.
Proof. vm_compute. reflexivity. Qed.

Lemma fmt02_digits (n : Z) :
  0 ≤ n ≤ 99 →
  ∃ d1 d2,
    IsoTzinfo.fmt02 n = String d1 (String d2 "")
    ∧ IsoTzinfo.is_digit d1 = true ∧ IsoTzinfo.is_digit d2 = true
    ∧ IsoTzinfo.int_of_digits (String d1 (String d2 "")) = n.
Proof.
  intros Hn.
  assert (Hin : fmt02_two_digits n = true).
  { pose proof fmt02_first_hundred as Hall.
    rewrite forallb_forall in Hall. apply Hall.
    apply list_elem_of_In, list_elem_of_fmap.
    exists (Z.to_nat n). split; [lia|].
    apply elem_of_seq. lia. }
  unfold fmt02_two_digits in Hin.
  destruct (IsoTzinfo.fmt02 n) as [|d1 [|d2 [|]]]; try done.
  apply andb_prop in Hin as [Hd Hi]. apply andb_prop in Hd as [H1 H2].
  apply Z.eqb_eq in Hi. by exists d1, d2.
Qed.


Lemma parse_tzinfo_hours_only (s a1 a2 : ascii) (rest : string) :
  IsoTzinfo.is_sign s = true →
  IsoTzinfo.is_digit a1 = true → IsoTzinfo.is_digit a2 = true →
  colon_minutes rest = false →
  IsoTzinfo.parse_tzinfo (String s (String a1 (String a2 rest)))
  = IsoTzinfo.Return
      (Some (IsoTzinfo.FixedOffset
               ((if Ascii.eqb s "-" then -1 else 1)
                * IsoTzinfo.int_of_digits (String a1 (String a2 "")))
               0
               (String s (String a1 (String a2 ""))))).
Proof.
  intros Hs Ha1 Ha2 Hrest.
  unfold IsoTzinfo.parse_tzinfo, IsoTzinfo.TZ_RE_match. cbv zeta.
  assert (Hz : Ascii.eqb s "Z" = false).
  { unfold IsoTzinfo.is_sign in Hs.
    destruct (Ascii.eqb_spec s "+") as [->|]; [done|].
    by destruct (Ascii.eqb_spec s "-") as [->|]. }
  rewrite Hz, Hs, Ha1, Ha2. cbn [andb].
  assert (Hgroups :
    match rest with
    | String colon (String m1 (String m2 _)) =>
        if Ascii.eqb colon ":" && IsoTzinfo.is_digit m1
           && IsoTzinfo.is_digit m2
        then
          Some (IsoTzinfo.mkGroups
                  (Some (String s (String a1 (String a2
                           (String ":" (String m1 (String m2 "")))))))
                  (Some (String s "")) (Some (String a1 (String a2 "")))
                  (Some (String m1 (String m2 ""))))
        else
          Some (IsoTzinfo.mkGroups (Some (String s (String a1 (String a2 ""))))
                  (Some (String s "")) (Some (String a1 (String a2 ""))) None)
    | _ =>
        Some (IsoTzinfo.mkGroups (Some (String s (String a1 (String a2 ""))))
                (Some (String s "")) (Some (String a1 (String a2 ""))) None)
    end
    = Some (IsoTzinfo.mkGroups (Some (String s (String a1 (String a2 ""))))
              (Some (String s "")) (Some (String a1 (String a2 ""))) None)).
  { destruct rest as [|k [|m1 [|m2 r]]]; try done.
    cbn [colon_minutes] in Hrest. by rewrite Hrest. }
  rewrite Hgroups.
  cbn [IsoTzinfo.tzname IsoTzinfo.tzsign IsoTzinfo.tzhour IsoTzinfo.tzmin
       IsoTzinfo.build_tzinfo IsoTzinfo.int_or_0 String.eqb].
  rewrite Hz.
  destruct (Ascii.eqb_spec s "-") as [->|Hne].
  - by rewrite bool_decide_eq_true_2.
  - rewrite bool_decide_eq_false_2; [done|]. by intros [= ->].
Qed.

Lemma offset_in_range (secs : Z) :
  Z.abs secs < 360000 →
  0 ≤ offset_hours_of secs ≤ 99 ∧ 0 ≤ offset_minutes_of secs ≤ 59.
Proof.
  intros H. unfold offset_hours_of, offset_minutes_of.
  pose proof (Z.abs_nonneg secs).
  split; [|pose proof (Z.mod_pos_bound (Z.abs secs / 60) 60); lia].
  rewrite Z.div_div by lia. split; [apply Z.div_pos; lia|].
  apply Z.lt_succ_r. apply Z.div_lt_upper_bound; lia.
Qed.

Lemma tz_isoformat_value (td : IsoTzinfo.timedelta)
    (d : option IsoTzinfo.timedelta) (format : string) :
  is_utc td d = false →
  Z.abs (offset_seconds td) < 360000 →
  IsoTzinfo.tz_isoformat (datetime_at td d) format
  = let sign := if offset_seconds td <? 0 then "-" else "+" in
    let hh := IsoTzinfo.fmt02 (offset_hours_of (offset_seconds td)) in
    let mm := IsoTzinfo.fmt02 (offset_minutes_of (offset_seconds td)) in
    if String.eqb format "%Z" then IsoTzinfo.Return (sign +:+ hh +:+ ":" +:+ mm)
    else if String.eqb format "%z" then IsoTzinfo.Return (sign +:+ hh +:+ mm)
    else if String.eqb format "%h" then IsoTzinfo.Return (sign +:+ hh)
    else IsoTzinfo.Throw
           (IsoTzinfo.AttributeError
              ("unknown format string " +:+ String "034" format
               +:+ String "034" "")).
Proof.
  intros Hu Hr. unfold IsoTzinfo.tz_isoformat, datetime_at.
  cbn [IsoTzinfo.dt_tzinfo IsoTzinfo.utcoffset IsoTzinfo.dst].
  fold (is_utc td d). rewrite Hu. cbv zeta.
  fold (offset_seconds td).
  fold (offset_hours_of (offset_seconds td)).
  fold (offset_minutes_of (offset_seconds td)).
  destruct (offset_in_range _ Hr) as [Hh _].
  destruct (Z.gtb_spec (offset_hours_of (offset_seconds td)) 99); [lia|].
  done.
Qed.

Lemma sign_char_cases (secs : Z) :
  ∃ s, (if secs <? 0 then "-" else "+") = String s ""
       ∧ IsoTzinfo.is_sign s = true
       ∧ (if Ascii.eqb s "-" then -1 else 1) = sign_factor secs.
Proof.
  unfold sign_factor. destruct (secs <? 0); by eexists.
Qed.



Lemma digit_not_colon (c : ascii) :
  IsoTzinfo.is_digit c = true → Ascii.eqb c ":" = false.
Proof. destruct (Ascii.eqb_spec c ":") as [->|]; done. Qed.

(** X22: the two formats without a colon do not come back whole.  What
    [tz_isoformat] writes with [%z] (sign, hours, minutes) is read by
    [parse_tzinfo] as the hours alone: the minutes are dropped and the
    name is the first three characters.  What it writes with [%h] comes
    back as the hours it holds. *)
Theorem tz_isoformat_basic_parse (td : IsoTzinfo.timedelta)
    (d : option IsoTzinfo.timedelta) :
  is_utc td d = false →
  Z.abs (offset_seconds td) < 360000 →
  ∃ basic hours,
    IsoTzinfo.tz_isoformat (datetime_at td d) "%z" = IsoTzinfo.Return basic
    ∧ IsoTzinfo.tz_isoformat (datetime_at td d) "%h" = IsoTzinfo.Return hours
    ∧ String.length basic = 5%nat
    ∧ String.length hours = 3%nat
    ∧ IsoTzinfo.parse_tzinfo basic = IsoTzinfo.parse_tzinfo hours
    ∧ IsoTzinfo.parse_tzinfo hours
      = IsoTzinfo.Return
          (Some (IsoTzinfo.FixedOffset
                   (sign_factor (offset_seconds td)
                    * offset_hours_of (offset_seconds td))
                   0 hours)).
Proof.
  intros Hu Hr.
  rewrite (tz_isoformat_value td d "%z" Hu Hr).
  rewrite (tz_isoformat_value td d "%h" Hu Hr).
  cbv zeta. cbn [String.eqb Ascii.eqb Bool.eqb].
  destruct (offset_in_range _ Hr) as [Hh Hm].
  destruct (fmt02_digits _ Hh) as (a1 & a2 & -> & Ha1 & Ha2 & Hha).
  destruct (fmt02_digits (offset_minutes_of (offset_seconds td))
              ltac:(lia)) as (b1 & b2 & -> & Hb1 & Hb2 & Hmb).
  destruct (sign_char_cases (offset_seconds td)) as (s & -> & Hs & Hf).
  eexists _, _. split; [reflexivity|]. split; [reflexivity|].
  split; [reflexivity|]. split; [reflexivity|].
  change (String s "" +:+ String a1 (String a2 "") +:+ String b1 (String b2 ""))
    with (String s (String a1 (String a2 (String b1 (String b2 ""))))).
  change (String s "" +:+ String a1 (String a2 ""))
    with (String s (String a1 (String a2 ""))).
  rewrite (parse_tzinfo_hours_only s a1 a2 (String b1 (String b2 "")))
    by (try done; cbn [colon_minutes]; by rewrite (digit_not_colon b1 Hb1)).
  rewrite (parse_tzinfo_hours_only s a1 a2 "") by done.
  by rewrite Hha, Hf.
Qed.

Lemma tz_isoformat_basic_parse_witness :
  IsoTzinfo.tz_isoformat (datetime_at plus_0530 None) "%z"
  = IsoTzinfo.Return "+0530"
  ∧ IsoTzinfo.parse_tzinfo "+0530"
    = IsoTzinfo.Return (Some (IsoTzinfo.FixedOffset 5 0 "+05")).
Proof.
  destruct (tz_isoformat_basic_parse plus_0530 None eq_refl
              ltac:(vm_compute; reflexivity))
    as (basic & hours & Hb & Hh & _ & _ & Hbh & Hp).
  vm_compute in Hb, Hh. injection Hb as <-. injection Hh as <-.
  split; [reflexivity|]. rewrite Hbh. exact Hp.
Defined.



(** ** The marker of a pid *)

Lemma pretty_N_char_no_paren (x : N) :
  Ascii.eqb (pretty_N_char x) "(" = false
  ∧ Ascii.eqb (pretty_N_char x) ")" = false.
Proof.
  unfold pretty_N_char. by repeat case_match.
Qed.

Lemma pretty_N_go_lacks (c : ascii) (x : N) :
  c = "("%char ∨ c = ")"%char →
  ∀ s, lacks c s = true → lacks c (pretty_N_go x s) = true.
Proof.
  intros Hc. induction (N.lt_wf_0 x) as [x _ IH]; intros s Hs.
  destruct (decide (x = 0)%N) as [->|Hx]; [by rewrite pretty_N_go_0|].
  rewrite pretty_N_go_step by lia. apply IH; [apply N.div_lt; lia|].
  cbn [lacks]. rewrite Hs, andb_true_r. apply negb_true_iff.
  destruct (pretty_N_char_no_paren (x `mod` 10)) as [H1 H2].
  by destruct Hc as [-> | ->].
Qed.

Lemma str_lacks (c : ascii) (z : Z) :
  c = "("%char ∨ c = ")"%char → lacks c (Py.str z) = true.
Proof.
  intros Hc. unfold Py.str, pretty, pretty_Z.
  destruct z as [|p|p].
  - by destruct Hc as [-> | ->].
  - unfold pretty, pretty_positive, pretty, pretty_N.
    destruct (decide (N.pos p = 0%N)); [done|].
    by apply pretty_N_go_lacks.
  - change ("-" +:+ pretty p) with (String "-" (pretty p)).
    cbn [lacks].
    replace (Ascii.eqb "-" c) with false
      by (by destruct Hc as [-> | ->]).
    unfold pretty, pretty_positive, pretty, pretty_N.
    destruct (decide (N.pos p = 0%N)); [done|].
    by apply pretty_N_go_lacks.
Qed.

Lemma prefix_cons_ne (c d : ascii) (n h : string) :
  c ≠ d → String.prefix (String c n) (String d h) = false.
Proof. intros Hne. cbn. by destruct (Ascii.ascii_dec c d). Qed.

Lemma prefix_cons_eq (c : ascii) (n h : string) :
  String.prefix (String c n) (String c h) = String.prefix n h.
Proof. cbn. by destruct (Ascii.ascii_dec c c). Qed.

Lemma lacks_cons (x c : ascii) (s : string) :
  lacks x (String c s) = true → c ≠ x ∧ lacks x s = true.
Proof.
  cbn [lacks]. intros H. apply andb_prop in H as [Hc Hs].
  apply negb_true_iff in Hc. split; [|done].
  intros ->. by rewrite Ascii.eqb_refl in Hc.
Qed.

Lemma lacks_app (x : ascii) (a b : string) :
  lacks x (a +:+ b) = lacks x a && lacks x b.
Proof.
  induction a as [|c a IH]; [done|].
  change (String c a +:+ b) with (String c (a +:+ b)).
  cbn [lacks]. rewrite IH. by rewrite andb_assoc.
Qed.

Lemma str_in_lacks (x : ascii) (n h : string) :
  lacks x h = true → Py.str_in (String x n) h = false.
Proof.
  induction h as [|c h IH]; [done|].
  intros [Hc Hh]%lacks_cons. cbn [Py.str_in].
  rewrite prefix_cons_ne, IH; done.
Qed.

Lemma str_in_skip (x : ascii) (n name h : string) :
  lacks x name = true →
  Py.str_in (String x n) (name +:+ h) = Py.str_in (String x n) h.
Proof.
  induction name as [|c name IH]; [done|].
  intros [Hc Hh]%lacks_cons.
  change (String c name +:+ h) with (String c (name +:+ h)).
  cbn [Py.str_in]. rewrite prefix_cons_ne, IH; done.
Qed.

Lemma prefix_until (x : ascii) (a b rest : string) :
  lacks x a = true → lacks x b = true →
  String.prefix (a +:+ String x "") (b +:+ String x rest) = true → a = b.
Proof.
  revert b. induction a as [|c a IH]; intros [|d b] Ha Hb.
  - done.
  - apply lacks_cons in Hb as [Hd _].
    change (String d b +:+ String x rest)
      with (String d (b +:+ String x rest)).
    change ("" +:+ String x "") with (String x "").
    by rewrite prefix_cons_ne.
  - apply lacks_cons in Ha as [Hc _].
    change (String c a +:+ String x "") with (String c (a +:+ String x "")).
    change ("" +:+ String x rest) with (String x rest).
    by rewrite prefix_cons_ne.
  - apply lacks_cons in Ha as [_ Ha]. apply lacks_cons in Hb as [_ Hb].
    change (String c a +:+ String x "") with (String c (a +:+ String x "")).
    change (String d b +:+ String x rest)
      with (String d (b +:+ String x rest)).
    destruct (decide (c = d)) as [->|Hne].
    + rewrite prefix_cons_eq. intros H. f_equal. by apply IH.
    + by rewrite prefix_cons_ne.
Qed.

Lemma str_in_self_app (n h : string) : Py.str_in n (n +:+ h) = true.
Proof.
  destruct n as [|c n].
  - change ("" +:+ h) with h. destruct h; reflexivity.
  - change (String c n +:+ h) with (String c (n +:+ h)).
    cbn [Py.str_in].
    change (String c (n +:+ h)) with (String c n +:+ h).
    by rewrite prefix_append.
Qed.

(** X12: the marker of a pid is found in a process label made of a name,
    the marker of a pid and a rest, the name and the rest without an
    opening parenthesis, exactly when the two pids are the same: no pid
    is taken for another one, however their digits overlap. *)
Theorem pid_marker_exact (p q : Z) (name rest : string) :
  lacks "(" name = true →
  lacks "(" rest = true →
  Py.str_in (pid_marker p) (name +:+ pid_marker q +:+ rest) = true ↔ p = q.
Proof.
  intros Hname Hrest. split.
  - unfold pid_marker.
    change ("(pid " +:+ Py.str p +:+ ")")
      with (String "(" ("pid " +:+ Py.str p +:+ ")")).
    rewrite str_in_skip by done.
    change (("(pid " +:+ Py.str q +:+ ")") +:+ rest)
      with (String "(" (("pid " +:+ Py.str q +:+ ")") +:+ rest)).
    cbn [Py.str_in]. rewrite prefix_cons_eq.
    rewrite str_in_lacks.
    2:{ rewrite !lacks_app, str_lacks, Hrest by (by left). done. }
    rewrite orb_false_r.
    change ("pid " +:+ Py.str p +:+ ")")
      with (String "p" (String "i" (String "d" (String " "
              (Py.str p +:+ ")"))))).
    change (("pid " +:+ Py.str q +:+ ")") +:+ rest)
      with (String "p" (String "i" (String "d" (String " "
              ((Py.str q +:+ ")") +:+ rest))))).
    rewrite !prefix_cons_eq.
    rewrite string_app_assoc.
    change (")" +:+ rest) with (String ")" rest).
    intros H. apply prefix_until in H; try (apply str_lacks; by right).
    by apply (inj Py.str) in H.
  - intros ->. unfold pid_marker at 1.
    change ("(pid " +:+ Py.str q +:+ ")")
      with (String "(" ("pid " +:+ Py.str q +:+ ")")).
    rewrite str_in_skip by done.
    apply (str_in_self_app (pid_marker q) rest).
Qed.

Lemma pid_marker_exact_witness :
  Py.str_in (pid_marker 71) ("Web Content " +:+ pid_marker 71 +:+ " idle")
  = true
  ∧ Py.str_in (pid_marker 7) ("Web Content " +:+ pid_marker 71 +:+ " idle")
    = false.
Proof.
  split.
  - by apply (pid_marker_exact 71 71 "Web Content " " idle").
  - destruct (Py.str_in (pid_marker 7)
                ("Web Content " +:+ pid_marker 71 +:+ " idle")) eqn:H;
      [|done].
    by apply (pid_marker_exact 7 71 "Web Content " " idle") in H.
Defined.
